(** * Git auto-update helpers of the yuuka-comfyui custom nodes

    A shallow embedding of [update.py] (command runner, update checker,
    update applier, one-shot orchestrator) and of [yuuka_auto_update.py]
    (bootstrap loader), followed by the properties of the specification
    that were checked against it.

    Conventions of the embedding.
    - A Python [str] is a Rocq [string] read as a sequence of code points
      below 256 (ASCII and Latin-1); the builtins [strip], [lower],
      [splitlines] and [endswith] follow CPython on that range.
    - [Optional[str]] is [option string]; [None] is [None].
    - Everything the code asks of its surroundings (environment variable,
      file-system probes, the git executable, the module loader) is
      answered by an oracle that sees the whole history of observable
      events so far, so the surroundings may change between two calls.
    - Every observable action is appended to the event history: reading
      the environment, probing a path, spawning a process, printing a
      line, executing a module file.
    - Raised exceptions are the ones derived from [Exception]; the
      interpreter-level signals [KeyboardInterrupt] and [SystemExit]
      are outside the model. *)

From Stdlib Require Import ZArith List Bool Ascii String Lia.
From stdpp Require Import base gmap strings.

Local Open Scope string_scope.
Local Open Scope list_scope.

(** ** Python string builtins used by the code *)

Module Py.

(** [str.isspace] on one code point below 256: TAB..CR, FS..US, SPACE,
    NEL (0x85) and NBSP (0xA0). *)
Definition isspace (c : ascii) : bool :=
  let n := nat_of_ascii c in
  ((9 <=? n)%nat && (n <=? 13)%nat)
  || ((28 <=? n)%nat && (n <=? 32)%nat)
  || (n =? 133)%nat || (n =? 160)%nat.

Fixpoint lstrip (s : string) : string :=
  match s with
  | EmptyString => EmptyString
  | String c s' => if isspace c then lstrip s' else s
  end.

Fixpoint rstrip (s : string) : string :=
  match s with
  | EmptyString => EmptyString
  | String c s' =>
      match rstrip s' with
      | EmptyString => if isspace c then EmptyString else String c EmptyString
      | t => String c t
      end
  end.

(** [s.strip()] *)
Definition strip (s : string) : string := rstrip (lstrip s).

(** [str.lower] on one code point below 256: A..Z and the Latin-1
    capitals 0xC0..0xDE (the multiplication sign 0xD7 excepted) move up
    by 32. *)
Definition lower_char (c : ascii) : ascii :=
  let n := nat_of_ascii c in
  if ((65 <=? n)%nat && (n <=? 90)%nat)
     || ((192 <=? n)%nat && (n <=? 222)%nat && negb (n =? 215)%nat)
  then ascii_of_nat (n + 32) else c.

(** [s.lower()] *)
Fixpoint lower (s : string) : string :=
  match s with
  | EmptyString => EmptyString
  | String c s' => String (lower_char c) (lower s')
  end.

(** The line boundaries of [str.splitlines] below 256: LF, VT, FF, CR,
    FS, GS, RS and NEL; CR LF counts as one boundary. *)
Definition is_linebreak (c : ascii) : bool :=
  let n := nat_of_ascii c in
  ((10 <=? n)%nat && (n <=? 13)%nat)
  || ((28 <=? n)%nat && (n <=? 30)%nat)
  || (n =? 133)%nat.

(** [splitlines_from after_cr cur s]: [cur] is the line being read,
    [after_cr] tells that the previous character was a CR, whose LF
    is swallowed. *)
Fixpoint splitlines_from (after_cr : bool) (cur : string) (s : string)
  : list string :=
  match s with
  | EmptyString => if String.eqb cur "" then [] else [cur]
  | String c s' =>
      if after_cr && Ascii.eqb c "010" then splitlines_from false cur s'
      else if is_linebreak c
           then cur :: splitlines_from (Ascii.eqb c "013") "" s'
           else splitlines_from false (cur +:+ String c "") s'
  end.

(** [s.splitlines()] *)
Definition splitlines (s : string) : list string :=
  splitlines_from false "" s.

(** [s.endswith(suffix)]: some tail of [s] is [suffix]. *)
Fixpoint endswith (s suffix : string) : bool :=
  String.eqb s suffix
  || match s with
     | EmptyString => false
     | String _ s' => endswith s' suffix
     end.

(** Truth value of an [Optional[str]]: [None] and the empty string are
    false. *)
Definition truthy (o : option string) : bool :=
  match o with
  | None => false
  | Some s => negb (String.eqb s "")
  end.

(** [f"{o}"] for an [Optional[str]]. *)
Definition format (o : option string) : string :=
  match o with
  | None => "None"
  | Some s => s
  end.

(** [a == b] on two [Optional[str]] values. *)
Definition eq_opt (a b : option string) : bool :=
  match a, b with
  | None, None => true
  | Some x, Some y => String.eqb x y
  | _, _ => false
  end.

End Py.

(** ** Observable events, process outcomes, exceptions *)

(** What the code does to, or asks of, its surroundings. Paths are
    relative to [REPO_ROOT], the directory of [update.py]. *)
Inductive Event : Type :=
| EvGetenv (name : string)        (* os.getenv(name, ...) *)
| EvExists (path : string)        (* (REPO_ROOT / path).exists() *)
| EvRun (argv : list string)      (* subprocess.run(argv, cwd=REPO_ROOT) *)
| EvPrint (line : string)         (* print(line) *)
| EvExec (path : string).         (* spec.loader.exec_module on REPO_ROOT / path *)

(** What [subprocess.run(..., stdout=PIPE, stderr=PIPE, text=True)] can
    do: the process ran and exited with a code and two captured streams;
    the executable was not found ([FileNotFoundError]); or any other
    [Exception] was raised, of which [str(exc)] is kept. *)
Inductive Spawn : Type :=
| Exited (returncode : Z) (stdout stderr : string)
| NotFound
| Failed (msg : string).

(** A raised exception: its class name and [str(exc)]. *)
Record exn : Type := { exn_class : string; exn_str : string }.

Inductive Result (A : Type) : Type :=
| Return (a : A)
| Raise (e : exn).
Arguments Return {A} a.
Arguments Raise {A} e.

(** ** A state-and-exception monad for the statements of the code *)

Module Eff.
Section Monad.
Context {S : Type}.

Definition M (A : Type) : Type := S -> Result A * S.

Definition ret {A} (a : A) : M A := fun s => (Return a, s).

Definition raise {A} (e : exn) : M A := fun s => (Raise e, s).

Definition bind {A B} (m : M A) (k : A -> M B) : M B :=
  fun s =>
    match m s with
    | (Return a, s') => k a s'
    | (Raise e, s') => (Raise e, s')
    end.

(** [try: m except Exception as exc: handler exc] *)
Definition try_except {A} (m : M A) (handler : exn -> M A) : M A :=
  fun s =>
    match m s with
    | (Return a, s') => (Return a, s')
    | (Raise e, s') => handler e s'
    end.
End Monad.
Arguments M S A : clear implicits.
End Eff.

Notation "'do' x <- c ;; k" := (Eff.bind c (fun x => k))
  (at level 10, x pattern, c at level 99, k at level 200,
   format "'[v' 'do'  x  <-  c  ;; '/' k ']'").

(** ** update.py *)

Module Update.

(** The surroundings of [update.py]. Each oracle is given the events so
    far. *)
Record World : Type := {
  getenv : list Event -> string -> option string;
  exists_ : list Event -> string -> bool;
  spawn : list Event -> list string -> Spawn
}.

(** The module's global flag and the event history of the process. *)
Record State : Type := {
  _AUTO_UPDATE_RAN : bool;
  events : list Event
}.

(** [UPDATE_STATUS[key]]; the code looks up these four keys only. *)
Definition UPDATE_STATUS (key : string) : Z :=
  if String.eqb key "UP_TO_DATE" then 0
  else if String.eqb key "AHEAD" then 1
  else if String.eqb key "ERROR" then -1
  else if String.eqb key "SKIP" then 2
  else 0.

(** Line 96: [[line.strip() for line in text.splitlines() if line.strip()]] *)
Definition changed_files_of (text : string) : list string :=
  List.map Py.strip
    (List.filter (fun line => negb (String.eqb (Py.strip line) ""))
       (Py.splitlines text)).

(** Line 97: ["requirements.txt" in changed_files
    or any(name.endswith("plugin.json") for name in changed_files)] *)
Definition dependencies_changed_of (changed_files : list string) : bool :=
  List.existsb (fun name => String.eqb name "requirements.txt") changed_files
  || List.existsb (fun name => Py.endswith name "plugin.json") changed_files.

Section Code.
Variable w : World.

Definition M := Eff.M State.

Definition emit (e : Event) : M unit :=
  fun s => (Return tt,
            {| _AUTO_UPDATE_RAN := _AUTO_UPDATE_RAN s;
               events := events s ++ [e] |}).

Definition history : M (list Event) := fun s => (Return (events s), s).

Definition read_flag : M bool := fun s => (Return (_AUTO_UPDATE_RAN s), s).

Definition write_flag (b : bool) : M unit :=
  fun s => (Return tt, {| _AUTO_UPDATE_RAN := b; events := events s |}).

(** [os.getenv(name, default)] *)
Definition os_getenv (name default : string) : M string :=
  do h <- history;;
  do _ <- emit (EvGetenv name);;
  Eff.ret (match getenv w h name with Some v => v | None => default end).

(** [(REPO_ROOT / path).exists()] *)
Definition path_exists (path : string) : M bool :=
  do h <- history;;
  do _ <- emit (EvExists path);;
  Eff.ret (exists_ w h path).

(** [subprocess.run(command, check=True, stdout=PIPE, stderr=PIPE, ...)] *)
Definition subprocess_run (command : list string) : M Spawn :=
  do h <- history;;
  do _ <- emit (EvRun command);;
  Eff.ret (spawn w h command).

Definition print (line : string) : M unit := emit (EvPrint line).

Definition _log (message : string) : M unit :=
  print ("[Yuuka Auto Update] " +:+ message).

Definition _is_git_repo : M bool := path_exists ".git".

(** The [startupinfo] set on Windows only hides the console window;
    it does not enter the result. The three [except] clauses are the
    three failing cases of [Spawn]. *)
Definition _run_git_command (command : list string)
  : M (option string * option string) :=
  do result <- subprocess_run command;;
  match result with
  | Exited returncode stdout stderr =>
      if (returncode =? 0)%Z
      then Eff.ret (Some (Py.strip stdout), None)
      else Eff.ret (None,
                    Some (if negb (String.eqb (Py.strip stderr) "")
                          then Py.strip stderr
                          else Py.strip stdout))
  | NotFound =>
      Eff.ret (None,
               Some "Git executable not found. Please install Git and make sure it is on PATH.")
  | Failed msg => Eff.ret (None, Some msg)
  end.

Definition check_for_updates : M (Z * string * bool) :=
  do repo <- _is_git_repo;;
  if negb repo
  then Eff.ret (UPDATE_STATUS "SKIP",
                "Git repository not detected; auto-update skipped.", false)
  else
  do (_, error) <- _run_git_command ["git"; "fetch"];;
  if Py.truthy error
  then Eff.ret (UPDATE_STATUS "ERROR",
                "Failed to fetch from remote: " +:+ Py.format error, false)
  else
  do (local_hash, error) <- _run_git_command ["git"; "rev-parse"; "HEAD"];;
  if Py.truthy error
  then Eff.ret (UPDATE_STATUS "ERROR",
                "Cannot determine local HEAD: " +:+ Py.format error, false)
  else
  do (remote_hash, error) <- _run_git_command ["git"; "rev-parse"; "@{u}"];;
  if Py.truthy error
  then Eff.ret (UPDATE_STATUS "ERROR",
                "Cannot determine upstream commit. Is this branch tracking a remote? "
                +:+ "Git error: " +:+ Py.format error, false)
  else
  if Py.eq_opt local_hash remote_hash
  then Eff.ret (UPDATE_STATUS "UP_TO_DATE", "Repository already up to date.", false)
  else
  do (changed_files_str, error) <-
    _run_git_command ["git"; "diff"; "--name-only";
                      Py.format local_hash +:+ ".." +:+ Py.format remote_hash];;
  if Py.truthy error
  then Eff.ret (UPDATE_STATUS "AHEAD",
                "Update detected (changed files could not be listed).", true)
  else
  match changed_files_str with
  | None =>
      Eff.raise {| exn_class := "AttributeError";
                   exn_str := "'NoneType' object has no attribute 'splitlines'" |}
  | Some text =>
      let changed_files := changed_files_of text in
      let dependencies_changed := dependencies_changed_of changed_files in
      Eff.ret (UPDATE_STATUS "AHEAD", "Update detected on remote branch.",
               dependencies_changed)
  end.

Definition perform_update : M bool :=
  do _ <- _log "Attempting to fast-forward repository with 'git pull --ff-only'.";;
  do (output, error) <- _run_git_command ["git"; "pull"; "--ff-only"];;
  if Py.truthy error
  then
    do _ <- _log ("Failed to apply update automatically: " +:+ Py.format error);;
    Eff.ret false
  else
    do _ <- (if Py.truthy output
             then _log ("Pull output:" +:+ String "010" (Py.format output))
             else _log "Repository already up to date after pull.");;
    Eff.ret true.

Definition auto_update_if_needed (force : bool) : M bool :=
  do ran <- read_flag;;
  if ran && negb force then Eff.ret false else
  do _ <- write_flag true;;
  do raw <- os_getenv "YUUKA_COMFYUI_AUTO_UPDATE" "1";;
  let env_value := Py.lower (Py.strip raw) in
  if bool_decide (env_value ∈ ({[ "0"; "false"; "off" ]} : gset string))
  then
    do _ <- _log "Auto-update disabled via YUUKA_COMFYUI_AUTO_UPDATE environment variable.";;
    Eff.ret false
  else
  do (status, message, dependencies_changed) <- check_for_updates;;
  if (status =? UPDATE_STATUS "ERROR")%Z
  then do _ <- _log message;; Eff.ret false
  else
  if (status =? UPDATE_STATUS "SKIP")%Z
  then do _ <- _log message;; Eff.ret false
  else
  if (status =? UPDATE_STATUS "UP_TO_DATE")%Z
  then Eff.ret false
  else
  do _ <- _log message;;
  do applied <- perform_update;;
  if negb applied then Eff.ret false else
  do _ <- _log "Repository updated successfully. Please restart ComfyUI to load the new code.";;
  do have_requirements <-
    (if dependencies_changed then path_exists "requirements.txt" else Eff.ret false);;
  do _ <- (if have_requirements
           then _log ("Detected dependency changes. "
                      +:+ "Run 'pip install -r requirements.txt' if additional packages are required.")
           else Eff.ret tt);;
  Eff.ret true.

End Code.

(** The state of a process that has just imported the module. *)
Definition initial : State := {| _AUTO_UPDATE_RAN := false; events := [] |}.

(** Other activity of the process: events that are not the module's. *)
Definition elapse (others : list Event) (s : State) : State :=
  {| _AUTO_UPDATE_RAN := _AUTO_UPDATE_RAN s; events := events s ++ others |}.

(** A process lifetime seen from the module: one unforced call of
    [auto_update_if_needed] per element of [gaps], each after the other
    activity given by that element. *)
Fixpoint lifetime (w : World) (gaps : list (list Event)) (s : State)
  : list (Result bool) * State :=
  match gaps with
  | [] => ([], s)
  | others :: rest =>
      let '(r, s1) := auto_update_if_needed w false (elapse others s) in
      let '(rs, s2) := lifetime w rest s1 in
      (r :: rs, s2)
  end.

End Update.

(** ** yuuka_auto_update.py *)

Module Bootstrap.

Definition _MODULE_NAME : string := "yuuka_comfyui._internal_update".

(** A module object as far as the loader and [update.py] look at it:
    whether it has the attribute [auto_update_if_needed], and the value
    of its global [_AUTO_UPDATE_RAN]. [module_from_spec] gives the
    blank one; executing [update.py] in it gives the loaded one. *)
Record module : Type := {
  has_auto_update_if_needed : bool;
  module_AUTO_UPDATE_RAN : bool
}.

Definition blank_module : module :=
  {| has_auto_update_if_needed := false; module_AUTO_UPDATE_RAN := false |}.

Definition loaded_module : module :=
  {| has_auto_update_if_needed := true; module_AUTO_UPDATE_RAN := false |}.

(** The surroundings of the loader: those of [update.py], whether
    [spec_from_file_location] gives a spec with a loader, and whether
    executing the file raises. *)
Record Host : Type := {
  world : Update.World;
  spec_from_file_location : list Event -> bool;
  exec_module : list Event -> option exn
}.

(** [sys.modules] and the event history of the process. A module object
    is reached through its registry entry only, so it is kept by value
    there and written back after a call into it. *)
Record Process : Type := {
  sys_modules : gmap string module;
  trace : list Event
}.

Section Code.
Variable host : Host.

Definition M := Eff.M Process.

Definition emit (e : Event) : M unit :=
  fun p => (Return tt,
            {| sys_modules := sys_modules p; trace := trace p ++ [e] |}).

Definition history : M (list Event) := fun p => (Return (trace p), p).

(** [sys.modules.get(name)] *)
Definition sys_modules_get (name : string) : M (option module) :=
  fun p => (Return (sys_modules p !! name), p).

(** [sys.modules[name] = m] *)
Definition sys_modules_set (name : string) (m : module) : M unit :=
  fun p => (Return tt,
            {| sys_modules := <[name := m]> (sys_modules p);
               trace := trace p |}).

(** [sys.modules.pop(name, None)] *)
Definition sys_modules_pop (name : string) : M unit :=
  fun p => (Return tt,
            {| sys_modules := delete name (sys_modules p);
               trace := trace p |}).

Definition path_exists (path : string) : M bool :=
  do h <- history;;
  do _ <- emit (EvExists path);;
  Eff.ret (Update.exists_ (world host) h path).

(** [spec_from_file_location(...)], then [spec and spec.loader]. *)
Definition find_spec : M bool :=
  do h <- history;;
  Eff.ret (spec_from_file_location host h).

(** [spec.loader.exec_module(module)] for the module registered under
    [name]: on success the module has the globals of [update.py]. *)
Definition run_exec_module (name path : string) : M module :=
  do h <- history;;
  do _ <- emit (EvExec path);;
  match exec_module host h with
  | Some e => Eff.raise e
  | None =>
      do _ <- sys_modules_set name loaded_module;;
      Eff.ret loaded_module
  end.

Definition print (line : string) : M unit := emit (EvPrint line).

Definition _load_update_module : M (option module) :=
  do cached <- sys_modules_get _MODULE_NAME;;
  match cached with
  | Some module => Eff.ret (Some module)
  | None =>
      do present <- path_exists "update.py";;
      if negb present then Eff.ret None else
      do spec <- find_spec;;
      if negb spec then Eff.ret None else
      do _ <- sys_modules_set _MODULE_NAME blank_module;;
      do module <-
        Eff.try_except
          (run_exec_module _MODULE_NAME "update.py")
          (fun e => do _ <- sys_modules_pop _MODULE_NAME;; Eff.raise e);;
      Eff.ret (Some module)
  end.

(** [module.auto_update_if_needed()] on the module registered under
    [_MODULE_NAME]: the function of [update.py] runs on that module's
    flag and on the history of the process. *)
Definition call_auto_update_if_needed (m : module) : M bool :=
  fun p =>
    let '(r, st) :=
      Update.auto_update_if_needed (world host) false
        {| Update._AUTO_UPDATE_RAN := module_AUTO_UPDATE_RAN m;
           Update.events := trace p |} in
    (r, {| sys_modules :=
             <[_MODULE_NAME :=
                 {| has_auto_update_if_needed := has_auto_update_if_needed m;
                    module_AUTO_UPDATE_RAN := Update._AUTO_UPDATE_RAN st |}]>
               (sys_modules p);
           trace := Update.events st |}).

Definition ensure_auto_update : M unit :=
  Eff.try_except
    (do module <- _load_update_module;;
     match module with
     | Some m =>
         if has_auto_update_if_needed m
         then do _ <- call_auto_update_if_needed m;; Eff.ret tt
         else Eff.ret tt
     | None => Eff.ret tt
     end)
    (fun exc =>
       print ("[Yuuka Auto Update] Skipping due to unexpected error: "
              +:+ exn_str exc)).

End Code.

End Bootstrap.

(** ** Words of the specification *)

Module Spec.

Definition has_slash (p : string) : bool :=
  List.existsb (fun c => Ascii.eqb c "/") (list_ascii_of_string p).

(** The final segment of a path: what follows its last ["/"]. *)
Fixpoint final_segment (p : string) : string :=
  match p with
  | EmptyString => EmptyString
  | String c p' =>
      if has_slash p' then final_segment p'
      else if Ascii.eqb c "/" then p'
      else p
  end.

(** [s] ends with the characters of [suffix]. *)
Definition has_suffix (s suffix : string) : Prop :=
  exists front, s = front +:+ suffix.

Definition TOGGLE : string := "YUUKA_COMFYUI_AUTO_UPDATE".

(** The Environment Toggle is set to a recognised falsy value. *)
Definition toggle_disables (value : option string) : Prop :=
  exists v, value = Some v /\ In (Py.lower (Py.strip v)) ["0"; "false"; "off"].

(** The one-shot gate lets the call through. *)
Definition gate_open (force : bool) (s : Update.State) : Prop :=
  Update._AUTO_UPDATE_RAN s = false \/ force = true.

(** The state in which the orchestrator, once through the gate, has set
    the flag and read the toggle. *)
Definition entered (s : Update.State) : Update.State :=
  {| Update._AUTO_UPDATE_RAN := true;
     Update.events := Update.events s ++ [EvGetenv TOGGLE] |}.

(** A command that exits non-zero with nothing but white space on both
    captured streams. *)
Definition silent (result : Spawn) : Prop :=
  exists returncode stdout stderr,
    result = Exited returncode stdout stderr /\ returncode <> 0%Z
    /\ Py.strip stdout = "" /\ Py.strip stderr = "".

(** From [s], the repository is detected, the fetch reports no error
    and both identifiers are resolved without a reported error, to
    [local_hash] and [remote_hash], leaving the process in [s']. *)
Definition resolves (w : Update.World) (s : Update.State)
    (local_hash remote_hash : option string) (s' : Update.State) : Prop :=
  exists s1 s2 s3 out e1 e2 e3,
    Update._is_git_repo w s = (Return true, s1)
    /\ Update._run_git_command w ["git"; "fetch"] s1 = (Return (out, e1), s2)
    /\ Py.truthy e1 = false
    /\ Update._run_git_command w ["git"; "rev-parse"; "HEAD"] s2
       = (Return (local_hash, e2), s3)
    /\ Py.truthy e2 = false
    /\ Update._run_git_command w ["git"; "rev-parse"; "@{u}"] s3
       = (Return (remote_hash, e3), s')
    /\ Py.truthy e3 = false.

(** The events of a check that reaches the comparison of the two
    identifiers. *)
Definition resolving : list Event :=
  [EvExists ".git"; EvRun ["git"; "fetch"];
   EvRun ["git"; "rev-parse"; "HEAD"]; EvRun ["git"; "rev-parse"; "@{u}"]].

(** The changed-path listing command of [check_for_updates]. *)
Definition diff_command (local_hash remote_hash : option string) : list string :=
  ["git"; "diff"; "--name-only";
   Py.format local_hash +:+ ".." +:+ Py.format remote_hash].

(** The four variants of Update Status and their codes in
    [UPDATE_STATUS]. *)
Definition UpToDate : Z := Update.UPDATE_STATUS "UP_TO_DATE".
Definition AheadAvailable : Z := Update.UPDATE_STATUS "AHEAD".
Definition Error : Z := Update.UPDATE_STATUS "ERROR".
Definition Skipped : Z := Update.UPDATE_STATUS "SKIP".

End Spec.

(** A computation keeps the flag and only appends to the history. *)
Definition frame {A} (m : Update.M A) : Prop :=
  forall s,
    Update._AUTO_UPDATE_RAN (snd (m s)) = Update._AUTO_UPDATE_RAN s
    /\ exists evs, Update.events (snd (m s)) = Update.events s ++ evs.

(** ** Concrete surroundings used to run the code *)

Module Sample.

(** A git that answers each of the five commands of the code the same
    way whatever happened before. *)
Definition git (fetch head upstream diff pull : Spawn) (argv : list string)
  : Spawn :=
  match argv with
  | _ :: sub :: rest =>
      if String.eqb sub "fetch" then fetch
      else if String.eqb sub "rev-parse"
           then (if String.eqb (List.nth 0 rest "") "HEAD" then head else upstream)
      else if String.eqb sub "diff" then diff
      else if String.eqb sub "pull" then pull
      else NotFound
  | _ => NotFound
  end.

Definition world (toggle : option string) (git_dir requirements : bool)
    (run : list string -> Spawn) : Update.World :=
  {| Update.getenv := fun _ name =>
       if String.eqb name "YUUKA_COMFYUI_AUTO_UPDATE" then toggle else None;
     Update.exists_ := fun _ path =>
       if String.eqb path ".git" then git_dir
       else if String.eqb path "requirements.txt" then requirements
       else if String.eqb path "update.py" then true
       else false;
     Update.spawn := fun _ argv => run argv |}.

Definition ok (stdout : string) : Spawn := Exited 0 stdout "".

(** A checkout one commit behind its upstream, whose changed paths are
    [diff_out]. *)
Definition behind (diff_out : string) : Update.World :=
  world None true true
    (git (ok "") (ok "1111111
") (ok "2222222
") (ok diff_out) (ok "Updating 1111111..2222222")).

Definition listing : Event :=
  EvRun ["git"; "diff"; "--name-only"; "1111111..2222222"].

(** The same checkout when the listing command fails with [diff]. *)
Definition unlisted (diff : Spawn) : Update.World :=
  world None true true
    (git (ok "") (ok "1111111") (ok "2222222") diff (ok "")).

(** A git whose every command exits with code 1 and prints nothing. *)
Definition mute : Update.World :=
  world None true true (fun _ => Exited 1 " " "").

(** A host whose [update.py] is present or not, and either loads or
    raises each time. *)
Definition host (present : bool) (failure : option exn) : Bootstrap.Host :=
  {| Bootstrap.world :=
       {| Update.getenv := fun _ _ => None;
          Update.exists_ := fun _ path =>
            if String.eqb path "update.py" then present else true;
          Update.spawn := fun _ _ => ok "" |};
     Bootstrap.spec_from_file_location := fun _ => true;
     Bootstrap.exec_module := fun _ => failure |}.

Definition fresh : Bootstrap.Process :=
  {| Bootstrap.sys_modules := ∅; Bootstrap.trace := [] |}.

End Sample.

(** ** __init__.py *)

Module Package.

Section Code.
Context {Class : Type}.

(** A node-providing module ([yuuka_lora_downloader], [yuuka_ouput]) as
    far as [_merge] looks at it: its two attributes, when it has them. *)
Record node_module : Type := {
  attr_NODE_CLASS_MAPPINGS : option (gmap string Class);
  attr_NODE_DISPLAY_NAME_MAPPINGS : option (gmap string string)
}.

(** The two dictionaries of the package. *)
Record Mappings : Type := {
  NODE_CLASS_MAPPINGS : gmap string Class;
  NODE_DISPLAY_NAME_MAPPINGS : gmap string string
}.

(** [d.update(other)]: the entries of [other] replace those of [d]. *)
Definition dict_update {V} (d other : gmap string V) : gmap string V :=
  other ∪ d.

(** [getattr(module, name, {})] *)
Definition getattr_or_empty {V} (attr : option (gmap string V)) : gmap string V :=
  match attr with
  | Some d => d
  | None => ∅
  end.

Definition _merge (module : node_module) (g : Mappings) : Mappings :=
  {| NODE_CLASS_MAPPINGS :=
       dict_update (NODE_CLASS_MAPPINGS g)
         (getattr_or_empty (attr_NODE_CLASS_MAPPINGS module));
     NODE_DISPLAY_NAME_MAPPINGS :=
       dict_update (NODE_DISPLAY_NAME_MAPPINGS g)
         (getattr_or_empty (attr_NODE_DISPLAY_NAME_MAPPINGS module)) |}.

(** Lines 20 to 30: both dictionaries start empty, then
    [_merge(_lora_downloader)] and [_merge(_output_nodes)]. *)
Definition merged (_lora_downloader _output_nodes : node_module) : Mappings :=
  _merge _output_nodes
    (_merge _lora_downloader
       {| NODE_CLASS_MAPPINGS := ∅; NODE_DISPLAY_NAME_MAPPINGS := ∅ |}).

End Code.

End Package.

(** ** The output of the listing command *)

Module Listing.

(** A path as [git diff --name-only] prints it on a line of its own: not
    empty, without white space at either end, without a line boundary
    inside. *)
Definition plain_path (p : string) : bool :=
  negb (String.eqb p "")
  && String.eqb (Py.strip p) p
  && List.forallb (fun c => negb (Py.is_linebreak c)) (list_ascii_of_string p).

(** The text the runner returns for a listing that names [paths]: one
    path per line, the lines separated by LF. *)
Fixpoint listing_of (paths : list string) : string :=
  match paths with
  | [] => ""
  | [p] => p
  | p :: rest => p +:+ String "010" (listing_of rest)
  end.

End Listing.

(** ** Further words for the properties of the code *)

Module Obs.

(** The events [check_for_updates] may add: the probe of [.git] and its
    four commands. *)
Definition checker_event (e : Event) : Prop :=
  e = EvExists ".git"
  \/ e = EvRun ["git"; "fetch"]
  \/ e = EvRun ["git"; "rev-parse"; "HEAD"]
  \/ e = EvRun ["git"; "rev-parse"; "@{u}"]
  \/ exists range, e = EvRun ["git"; "diff"; "--name-only"; range].

(** A computation keeps the flag and appends only events that satisfy
    [P]. *)
Definition frame_by (P : Event -> Prop) {A} (m : Update.M A) : Prop :=
  forall s,
    Update._AUTO_UPDATE_RAN (snd (m s)) = Update._AUTO_UPDATE_RAN s
    /\ exists evs, Update.events (snd (m s)) = Update.events s ++ evs
                   /\ Forall P evs.

(** Every value a computation returns satisfies [Q]. *)
Definition answers {A} (Q : A -> Prop) (m : Update.M A) : Prop :=
  forall s a s', m s = (Return a, s') -> Q a.

(** A computation never raises. *)
Definition returns {A} (m : Update.M A) : Prop :=
  forall s, exists a s', m s = (Return a, s').

(** Every failure of a spawned command comes with some text: a non-zero
    exit leaves something other than white space on one of the streams,
    and an exception has a message. *)
Definition loud (w : Update.World) : Prop :=
  forall h command,
    match Update.spawn w h command with
    | Exited returncode stdout stderr =>
        returncode = 0%Z \/ Py.strip stderr <> "" \/ Py.strip stdout <> ""
    | NotFound => True
    | Failed msg => msg <> ""
    end.

(** The lines of the orchestrator. *)
Definition logged (message : string) : Event :=
  EvPrint ("[Yuuka Auto Update] " +:+ message).

Definition ATTEMPT : string :=
  "Attempting to fast-forward repository with 'git pull --ff-only'.".

Definition SUCCESS : string :=
  "Repository updated successfully. Please restart ComfyUI to load the new code.".

Definition NOTICE : string :=
  "Detected dependency changes. Run 'pip install -r requirements.txt' if additional packages are required.".

(** The codes and the flag of a Check Result. *)
Definition well_formed_result (r : Z * string * bool) : Prop :=
  let '(status, _, dep) := r in
  (status = Spec.UpToDate \/ status = Spec.AheadAvailable
   \/ status = Spec.Error \/ status = Spec.Skipped)
  /\ (dep = true -> status = Spec.AheadAvailable).

End Obs.

(** * Properties *)

(** ** Strings *)

Lemma append_cons (c : ascii) (front s : string) :
  String c front +:+ s = String c (front +:+ s).
Proof. reflexivity. Qed.

Lemma append_empty (s : string) : "" +:+ s = s.
Proof. reflexivity. Qed.

(** [endswith] is the suffix relation. *)
Lemma endswith_has_suffix (s suffix : string) :
  Py.endswith s suffix = true <-> Spec.has_suffix s suffix.
Proof.
  unfold Spec.has_suffix. induction s as [|c s IH]; cbn [Py.endswith].
  - rewrite orb_false_r, String.eqb_eq. split.
    + intros <-. now exists "".
    + intros [[|c front] H].
      * now rewrite append_empty in H.
      * rewrite append_cons in H. discriminate.
  - rewrite orb_true_iff, String.eqb_eq, IH. split.
    + intros [<- | [front ->]].
      * now exists "".
      * now exists (String c front).
    + intros [[|c' front] H].
      * left. now rewrite append_empty in H.
      * right. rewrite append_cons in H. injection H as _ ->. now exists front.
Qed.

Lemma has_slash_cons (c : ascii) (p : string) :
  Spec.has_slash (String c p) = Ascii.eqb c "/" || Spec.has_slash p.
Proof. reflexivity. Qed.

(** A suffix without ["/"] ends a path exactly when it ends the final
    segment of the path. *)
Lemma endswith_final_segment (suffix : string) :
  Spec.has_slash suffix = false ->
  forall p, Py.endswith (Spec.final_segment p) suffix = Py.endswith p suffix.
Proof.
  intros Hsuf. induction p as [|c p IH]; [reflexivity|].
  cbn [Spec.final_segment].
  assert (Hne : Ascii.eqb c "/" || Spec.has_slash p = true ->
                String.eqb (String c p) suffix = false).
  { intros Hs. apply String.eqb_neq. intros <-.
    rewrite has_slash_cons in Hsuf. congruence. }
  destruct (Spec.has_slash p) eqn:Hp.
  - rewrite IH. cbn [Py.endswith]. rewrite (Hne (orb_true_r _)). reflexivity.
  - destruct (Ascii.eqb c "/") eqn:Hc; [|reflexivity].
    change (Py.endswith (String c p) suffix)
      with (String.eqb (String c p) suffix || Py.endswith p suffix).
    rewrite (Hne eq_refl). reflexivity.
Qed.

Example final_segment_examples :
  Spec.final_segment "subdir/plugin.json" = "plugin.json"
  /\ Spec.final_segment "a/b/c" = "c"
  /\ Spec.final_segment "readme.md" = "readme.md"
  /\ Spec.final_segment "dir/" = "".
Proof. repeat split. Qed.

Example strip_examples :
  Py.strip "  OFF
" = "OFF" /\ Py.strip "a b" = "a b" /\ Py.strip "   " = "".
Proof. repeat split. Qed.

Example splitlines_examples :
  Py.splitlines "a

b" = ["a"; ""; "b"]
  /\ Py.splitlines ("a" +:+ String "013" (String "010" "b")) = ["a"; "b"]
  /\ Py.splitlines "" = [].
Proof. repeat split. Qed.

(** ** Running the statements *)

Lemma bind_return {S A B} (m : Eff.M S A) (k : A -> Eff.M S B) s a s' :
  m s = (Return a, s') -> Eff.bind m k s = k a s'.
Proof. unfold Eff.bind. now intros ->. Qed.

Lemma bind_raise {S A B} (m : Eff.M S A) (k : A -> Eff.M S B) s e s' :
  m s = (Raise e, s') -> Eff.bind m k s = (Raise e, s').
Proof. unfold Eff.bind. now intros ->. Qed.

Ltac step H := rewrite (bind_return _ _ _ _ _ H); cbv beta iota.

(** Once the identifiers are resolved, [check_for_updates] is at its
    comparison. *)
Lemma check_for_updates_resolved w s l r s' :
  Spec.resolves w s l r s' ->
  Update.check_for_updates w s =
  (if Py.eq_opt l r
   then Eff.ret (Update.UPDATE_STATUS "UP_TO_DATE",
                 "Repository already up to date.", false)
   else
     do (changed_files_str, error) <-
       Update._run_git_command w (Spec.diff_command l r);;
     if Py.truthy error
     then Eff.ret (Update.UPDATE_STATUS "AHEAD",
                   "Update detected (changed files could not be listed).", true)
     else
     match changed_files_str with
     | None =>
         Eff.raise {| exn_class := "AttributeError";
                      exn_str := "'NoneType' object has no attribute 'splitlines'" |}
     | Some text =>
         Eff.ret (Update.UPDATE_STATUS "AHEAD", "Update detected on remote branch.",
                  Update.dependencies_changed_of (Update.changed_files_of text))
     end) s'.
Proof.
  intros (s1 & s2 & s3 & out & e1 & e2 & e3 & H0 & H1 & T1 & H2 & T2 & H3 & T3).
  unfold Update.check_for_updates.
  step H0. cbn [negb]. step H1. rewrite T1. step H2. rewrite T2.
  step H3. rewrite T3. reflexivity.
Qed.

Lemma eq_opt_true (a b : option string) : Py.eq_opt a b = true <-> a = b.
Proof.
  destruct a as [x|], b as [y|]; cbn; try (split; congruence).
  rewrite String.eqb_eq. split; congruence.
Qed.

Lemma eq_opt_false (a b : option string) : a <> b -> Py.eq_opt a b = false.
Proof.
  intros H. destruct (Py.eq_opt a b) eqn:E; [|reflexivity].
  now apply eq_opt_true in E.
Qed.

Lemma truthy_some (e : string) : e <> "" -> Py.truthy (Some e) = true.
Proof. intros H. cbn. now apply String.eqb_neq in H as ->. Qed.

(** Line 97, read as a proposition. *)
Lemma dependencies_changed_of_true (changed_files : list string) :
  Update.dependencies_changed_of changed_files = true <->
  In "requirements.txt" changed_files
  \/ exists p, In p changed_files /\ Spec.has_suffix p "plugin.json".
Proof.
  unfold Update.dependencies_changed_of.
  rewrite orb_true_iff, !existsb_exists. split.
  - intros [(x & Hin & Hx) | (p & Hin & Hp)].
    + apply String.eqb_eq in Hx. subst x. now left.
    + right. exists p. now rewrite <- endswith_has_suffix.
  - intros [Hin | (p & Hin & Hp)].
    + left. exists "requirements.txt". now rewrite String.eqb_refl.
    + right. exists p. now rewrite endswith_has_suffix.
Qed.

Ltac resolved :=
  unfold Spec.resolves; do 7 eexists;
  repeat (split; [reflexivity|]); reflexivity.

(** ** The update checker *)

Lemma append_empty_r (s : string) : s +:+ "" = s.
Proof. induction s as [|c s IH]; [reflexivity|]. now rewrite append_cons, IH. Qed.

Lemma append_snoc (cur : string) (c : ascii) (p : string) :
  (cur +:+ String c "") +:+ p = cur +:+ String c p.
Proof. induction cur as [|d cur IH]; [reflexivity|]. now rewrite !append_cons, IH. Qed.

(** Characters that are no line boundary join the line being read. *)
Lemma splitlines_from_plain (p : string) : forall cur rest,
  List.forallb (fun c => negb (Py.is_linebreak c)) (list_ascii_of_string p) = true ->
  Py.splitlines_from false cur (p +:+ rest)
  = Py.splitlines_from false (cur +:+ p) rest.
Proof.
  induction p as [|c p IH]; intros cur rest H.
  - now rewrite append_empty, append_empty_r.
  - cbn [list_ascii_of_string List.forallb] in H.
    apply andb_true_iff in H as [Hc Hp]. apply negb_true_iff in Hc.
    rewrite append_cons. cbn [Py.splitlines_from andb]. rewrite Hc.
    now rewrite (IH _ _ Hp), append_snoc.
Qed.

Lemma splitlines_from_LF (cur rest : string) :
  Py.splitlines_from false cur (String "010" rest)
  = cur :: Py.splitlines_from false "" rest.
Proof. reflexivity. Qed.

(** [splitlines] gives back the paths of a listing. *)
Lemma splitlines_listing (paths : list string) :
  List.forallb Listing.plain_path paths = true ->
  Py.splitlines (Listing.listing_of paths) = paths.
Proof.
  unfold Py.splitlines.
  induction paths as [|p rest IH]; intros H; [reflexivity|].
  cbn [List.forallb] in H. apply andb_true_iff in H as [Hp Hrest].
  unfold Listing.plain_path in Hp.
  apply andb_true_iff in Hp as [Hp Hlb]. apply andb_true_iff in Hp as [Hne _].
  destruct rest as [|q rest].
  - cbn [Listing.listing_of].
    rewrite <- (append_empty_r p) at 1.
    rewrite (splitlines_from_plain p "" "" Hlb), append_empty.
    cbn [Py.splitlines_from]. apply negb_true_iff in Hne. now rewrite Hne.
  - change (Listing.listing_of (p :: q :: rest))
      with (p +:+ String "010" (Listing.listing_of (q :: rest))).
    rewrite (splitlines_from_plain p "" _ Hlb), append_empty, splitlines_from_LF.
    now rewrite (IH Hrest).
Qed.

(** Line 96 gives back the paths of a listing. *)
Lemma changed_files_of_listing (paths : list string) :
  List.forallb Listing.plain_path paths = true ->
  Update.changed_files_of (Listing.listing_of paths) = paths.
Proof.
  intros H. unfold Update.changed_files_of. rewrite (splitlines_listing paths H).
  induction paths as [|p rest IH]; [reflexivity|].
  cbn [List.forallb] in H. apply andb_true_iff in H as [Hp Hrest].
  unfold Listing.plain_path in Hp.
  apply andb_true_iff in Hp as [Hp _]. apply andb_true_iff in Hp as [Hne Hstrip].
  apply String.eqb_eq in Hstrip.
  cbn [List.filter]. rewrite Hstrip, Hne. cbn [List.map].
  now rewrite Hstrip, (IH Hrest).
Qed.

(** C3. After a successful changed-path listing between two different
    identifiers, [check_for_updates] answers AheadAvailable, and its
    dependency-changed flag is true exactly when the list has the entry
    ["requirements.txt"] or a path whose final segment ends with
    ["plugin.json"]; a list with ["subdir/plugin.json"] gives true, the
    list of ["readme.md"] alone gives false. The list is the one of the
    non-blank trimmed lines of the listing; when the listing names
    [paths], one per line, it is [paths] itself. *)
Theorem check_for_updates_classifies w s l r s4 text s5 :
  Spec.resolves w s l r s4 ->
  l <> r ->
  Update._run_git_command w (Spec.diff_command l r) s4
  = (Return (Some text, None), s5) ->
  exists dep,
    Update.check_for_updates w s
    = (Return (Spec.AheadAvailable, "Update detected on remote branch.", dep), s5)
    /\ (dep = true <->
        In "requirements.txt" (Update.changed_files_of text)
        \/ exists p, In p (Update.changed_files_of text)
                     /\ Spec.has_suffix (Spec.final_segment p) "plugin.json")
    /\ (In "subdir/plugin.json" (Update.changed_files_of text) -> dep = true)
    /\ (Update.changed_files_of text = ["readme.md"] -> dep = false)
    /\ (forall paths,
           List.forallb Listing.plain_path paths = true ->
           text = Listing.listing_of paths ->
           Update.changed_files_of text = paths
           /\ (dep = true <->
               In "requirements.txt" paths
               \/ exists p, In p paths
                            /\ Spec.has_suffix (Spec.final_segment p) "plugin.json")
           /\ (In "subdir/plugin.json" paths -> dep = true)
           /\ (paths = ["readme.md"] -> dep = false)).
Proof.
  intros Hres Hne Hdiff.
  exists (Update.dependencies_changed_of (Update.changed_files_of text)).
  assert (Hiff : forall files,
             Update.dependencies_changed_of files = true <->
             In "requirements.txt" files
             \/ exists p, In p files
                          /\ Spec.has_suffix (Spec.final_segment p) "plugin.json").
  { intros files. rewrite dependencies_changed_of_true.
    assert (Hseg : forall p, Spec.has_suffix (Spec.final_segment p) "plugin.json"
                             <-> Spec.has_suffix p "plugin.json").
    { intros p. rewrite <- !endswith_has_suffix.
      now rewrite (endswith_final_segment "plugin.json" eq_refl). }
    split; (intros [H | (p & Hin & Hp)]; [now left | right; exists p]);
      now rewrite ?Hseg in *. }
  assert (Hsub : forall files,
             In "subdir/plugin.json" files ->
             Update.dependencies_changed_of files = true).
  { intros files Hin. apply dependencies_changed_of_true. right.
    exists "subdir/plugin.json". split; [exact Hin | now exists "subdir/"]. }
  split; [|split; [|split; [|split]]].
  - rewrite (check_for_updates_resolved _ _ _ _ _ Hres), (eq_opt_false _ _ Hne).
    step Hdiff. reflexivity.
  - apply Hiff.
  - apply Hsub.
  - now intros ->.
  - intros paths Hplain ->. rewrite (changed_files_of_listing paths Hplain).
    split; [reflexivity|]. split; [apply Hiff|]. split; [apply Hsub|].
    now intros ->.
Qed.

Lemma check_for_updates_classifies_witness :
  let s4 := Update.elapse Spec.resolving Update.initial in
  let s5 := Update.elapse [Sample.listing] s4 in
  let l := Some "1111111" in
  let r := Some "2222222" in
  let message := "Update detected on remote branch." in
  (let paths := ["subdir/plugin.json"; "readme.md"] in
   let text := "subdir/plugin.json
readme.md" in
   let w := Sample.behind text in
   Spec.resolves w Update.initial l r s4
   /\ l <> r
   /\ Update._run_git_command w (Spec.diff_command l r) s4
      = (Return (Some text, None), s5)
   /\ List.forallb Listing.plain_path paths = true
   /\ text = Listing.listing_of paths
   /\ In "subdir/plugin.json" paths
   /\ Update.changed_files_of text = paths
   /\ Update.check_for_updates w Update.initial = (Return (1%Z, message, true), s5))
  /\ (let paths := ["readme.md"] in
      let text := "readme.md" in
      let w := Sample.behind text in
      Spec.resolves w Update.initial l r s4
      /\ l <> r
      /\ Update._run_git_command w (Spec.diff_command l r) s4
         = (Return (Some text, None), s5)
      /\ List.forallb Listing.plain_path paths = true
      /\ text = Listing.listing_of paths
      /\ Update.changed_files_of text = paths
      /\ Update.check_for_updates w Update.initial
         = (Return (1%Z, message, false), s5))
  /\ (let text := "requirements.txt  

  docs/readme.md" in
      let w := Sample.behind ("  " +:+ text +:+ "
") in
      Spec.resolves w Update.initial l r s4
      /\ l <> r
      /\ Update._run_git_command w (Spec.diff_command l r) s4
         = (Return (Some text, None), s5)
      /\ In "requirements.txt" (Update.changed_files_of text)
      /\ Update.check_for_updates w Update.initial
         = (Return (1%Z, message, true), s5)).
Proof.
  intros s4 s5 l r message.
  assert (H2 : l <> r) by discriminate.
  split; [|split].
  - intros paths text w.
    assert (H1 : Spec.resolves w Update.initial l r s4) by resolved.
    assert (H3 : Update._run_git_command w (Spec.diff_command l r) s4
                 = (Return (Some text, None), s5)) by reflexivity.
    assert (H4 : List.forallb Listing.plain_path paths = true) by reflexivity.
    assert (H5 : text = Listing.listing_of paths) by reflexivity.
    assert (H6 : In "subdir/plugin.json" paths) by (left; reflexivity).
    destruct (check_for_updates_classifies w _ _ _ _ _ _ H1 H2 H3)
      as (dep & Hcheck & _ & _ & _ & Hpaths).
    destruct (Hpaths paths H4 H5) as (Hfiles & _ & Htrue & _).
    rewrite (Htrue H6) in Hcheck.
    exact (conj H1 (conj H2 (conj H3 (conj H4 (conj H5 (conj H6
             (conj Hfiles Hcheck))))))).
  - intros paths text w.
    assert (H1 : Spec.resolves w Update.initial l r s4) by resolved.
    assert (H3 : Update._run_git_command w (Spec.diff_command l r) s4
                 = (Return (Some text, None), s5)) by reflexivity.
    assert (H4 : List.forallb Listing.plain_path paths = true) by reflexivity.
    assert (H5 : text = Listing.listing_of paths) by reflexivity.
    destruct (check_for_updates_classifies w _ _ _ _ _ _ H1 H2 H3)
      as (dep & Hcheck & _ & _ & _ & Hpaths).
    destruct (Hpaths paths H4 H5) as (Hfiles & _ & _ & Hfalse).
    rewrite (Hfalse eq_refl) in Hcheck.
    exact (conj H1 (conj H2 (conj H3 (conj H4 (conj H5 (conj Hfiles Hcheck)))))).
  - intros text w.
    assert (H1 : Spec.resolves w Update.initial l r s4) by resolved.
    assert (H3 : Update._run_git_command w (Spec.diff_command l r) s4
                 = (Return (Some text, None), s5)) by reflexivity.
    assert (H4 : In "requirements.txt" (Update.changed_files_of text))
      by (left; reflexivity).
    destruct (check_for_updates_classifies w _ _ _ _ _ _ H1 H2 H3)
      as (dep & Hcheck & Hiff & _).
    rewrite (proj2 Hiff (or_introl H4)) in Hcheck.
    exact (conj H1 (conj H2 (conj H3 (conj H4 Hcheck)))).
Defined.

(** C10. The plugin-descriptor test looks at the end of the whole path
    string and not at a base name: any listed path that ends with the
    characters ["plugin.json"] makes [check_for_updates] report
    dependency-changed true, also ["myplugin.json"] and
    ["dir/xplugin.json"], whose final segments are not ["plugin.json"]. *)
Theorem plugin_json_is_a_raw_suffix_test w s l r s4 text s5 p :
  Spec.resolves w s l r s4 ->
  l <> r ->
  Update._run_git_command w (Spec.diff_command l r) s4
  = (Return (Some text, None), s5) ->
  In p (Update.changed_files_of text) ->
  Spec.has_suffix p "plugin.json" ->
  Update.check_for_updates w s
  = (Return (Spec.AheadAvailable, "Update detected on remote branch.", true), s5)
  /\ Forall (fun q => Spec.has_suffix q "plugin.json"
                      /\ Spec.final_segment q <> "plugin.json"
                      /\ Update.dependencies_changed_of [q] = true)
       ["myplugin.json"; "dir/xplugin.json"].
Proof.
  intros Hres Hne Hdiff Hin Hp. split.
  - rewrite (check_for_updates_resolved _ _ _ _ _ Hres), (eq_opt_false _ _ Hne).
    step Hdiff. cbn [Py.truthy]. unfold Eff.ret. do 3 f_equal.
    apply dependencies_changed_of_true. right. now exists p.
  - repeat constructor; try discriminate.
    + now exists "my".
    + now exists "dir/x".
Qed.

Lemma plugin_json_is_a_raw_suffix_test_witness :
  let w := Sample.behind "docs/readme.md
myplugin.json" in
  let s4 := Update.elapse Spec.resolving Update.initial in
  let s5 := Update.elapse [Sample.listing] s4 in
  let text := "docs/readme.md
myplugin.json" in
  Spec.resolves w Update.initial (Some "1111111") (Some "2222222") s4
  /\ Some "1111111" <> Some "2222222"
  /\ Update._run_git_command w
       (Spec.diff_command (Some "1111111") (Some "2222222")) s4
     = (Return (Some text, None), s5)
  /\ In "myplugin.json" (Update.changed_files_of text)
  /\ Spec.has_suffix "myplugin.json" "plugin.json"
  /\ Update.check_for_updates w Update.initial
     = (Return (1%Z, "Update detected on remote branch.", true), s5).
Proof.
  intros w s4 s5 text.
  assert (H1 : Spec.resolves w Update.initial (Some "1111111") (Some "2222222") s4)
    by resolved.
  assert (H2 : Some "1111111" <> Some "2222222") by discriminate.
  assert (H3 : Update._run_git_command w
                 (Spec.diff_command (Some "1111111") (Some "2222222")) s4
               = (Return (Some text, None), s5)) by reflexivity.
  assert (H4 : In "myplugin.json" (Update.changed_files_of text))
    by (right; left; reflexivity).
  assert (H5 : Spec.has_suffix "myplugin.json" "plugin.json")
    by (exists "my"; reflexivity).
  exact (conj H1 (conj H2 (conj H3 (conj H4 (conj H5
           (proj1 (plugin_json_is_a_raw_suffix_test
                     w _ _ _ _ _ _ _ H1 H2 H3 H4 H5))))))).
Defined.

(** C7, as the code has it. When the identifiers differ and the listing
    command fails with a diagnostic text that is not empty,
    [check_for_updates] answers AheadAvailable with the message
    ["Update detected (changed files could not be listed)."] and the
    dependency-changed flag forced to true. *)
Theorem listing_failure_forces_flag w s l r s4 out err s5 :
  Spec.resolves w s l r s4 ->
  l <> r ->
  Update._run_git_command w (Spec.diff_command l r) s4
  = (Return (out, Some err), s5) ->
  err <> "" ->
  Update.check_for_updates w s
  = (Return (Spec.AheadAvailable,
             "Update detected (changed files could not be listed).", true), s5).
Proof.
  intros Hres Hne Hdiff Herr.
  rewrite (check_for_updates_resolved _ _ _ _ _ Hres), (eq_opt_false _ _ Hne).
  step Hdiff. now rewrite (truthy_some _ Herr).
Qed.

Lemma listing_failure_forces_flag_witness :
  let w := Sample.unlisted (Exited 128 "" "fatal: bad object 2222222
") in
  let s4 := Update.elapse Spec.resolving Update.initial in
  let s5 := Update.elapse [Sample.listing] s4 in
  Spec.resolves w Update.initial (Some "1111111") (Some "2222222") s4
  /\ Some "1111111" <> Some "2222222"
  /\ Update._run_git_command w
       (Spec.diff_command (Some "1111111") (Some "2222222")) s4
     = (Return (None, Some "fatal: bad object 2222222"), s5)
  /\ "fatal: bad object 2222222" <> ""
  /\ Update.check_for_updates w Update.initial
     = (Return (1%Z, "Update detected (changed files could not be listed).", true),
        s5).
Proof.
  intros w s4 s5.
  assert (H1 : Spec.resolves w Update.initial (Some "1111111") (Some "2222222") s4)
    by resolved.
  assert (H2 : Some "1111111" <> Some "2222222") by discriminate.
  assert (H3 : Update._run_git_command w
                 (Spec.diff_command (Some "1111111") (Some "2222222")) s4
               = (Return (None, Some "fatal: bad object 2222222"), s5))
    by reflexivity.
  assert (H4 : "fatal: bad object 2222222" <> "") by discriminate.
  exact (conj H1 (conj H2 (conj H3 (conj H4
           (listing_failure_forces_flag w _ _ _ _ _ _ _ H1 H2 H3 H4))))).
Defined.

(** C7 as worded does not hold. With a listing command that fails with
    ["fatal: bad object 2222222"], the message of the answer is not
    ["update detected (changed files could not be listed)"]; with a
    listing command that fails without any output, nothing is answered:
    [None.splitlines()] raises. *)
Lemma listing_failure_counterexample :
  fst (Update.check_for_updates
         (Sample.unlisted (Exited 128 "" "fatal: bad object 2222222"))
         Update.initial)
  <> Return (Spec.AheadAvailable,
             "update detected (changed files could not be listed)", true)
  /\ fst (Update.check_for_updates (Sample.unlisted (Exited 1 "" ""))
            Update.initial)
     = Raise {| exn_class := "AttributeError";
                exn_str := "'NoneType' object has no attribute 'splitlines'" |}.
Proof. split; [vm_compute; discriminate | reflexivity]. Qed.

(** ** Frame: what every statement of [update.py] leaves alone *)

Lemma frame_ret {A} (a : A) : frame (Eff.ret a).
Proof. intros s. split; [reflexivity|]. exists []. cbn. now rewrite app_nil_r. Qed.

Lemma frame_raise {A} (e : exn) : frame (@Eff.raise _ A e).
Proof. intros s. split; [reflexivity|]. exists []. cbn. now rewrite app_nil_r. Qed.

Lemma frame_emit (e : Event) : frame (Update.emit e).
Proof. intros s. split; [reflexivity|]. now exists [e]. Qed.

Lemma frame_history : frame Update.history.
Proof. intros s. split; [reflexivity|]. exists []. cbn. now rewrite app_nil_r. Qed.

Lemma frame_bind {A B} (m : Update.M A) (k : A -> Update.M B) :
  frame m -> (forall a, frame (k a)) -> frame (Eff.bind m k).
Proof.
  intros Hm Hk s. unfold Eff.bind.
  destruct (Hm s) as [Hf [evs He]]. destruct (m s) as [[a|e] s1]; cbn in *.
  - destruct (Hk a s1) as [Hf' [evs' He']]. split; [congruence|].
    exists (evs ++ evs'). now rewrite He', He, app_assoc.
  - split; [assumption|]. now exists evs.
Qed.

Ltac framing :=
  repeat first
    [ apply frame_ret | apply frame_raise | apply frame_emit
    | apply frame_history
    | apply frame_bind; [|intros]
    | match goal with
      | |- frame (if ?b then _ else _) => destruct b
      | |- frame (match ?x with _ => _ end) => destruct x
      end ].

Lemma frame_log (message : string) : frame (Update._log message).
Proof. apply frame_emit. Qed.

Lemma frame_path_exists w path : frame (Update.path_exists w path).
Proof. unfold Update.path_exists. framing. Qed.

Lemma frame_os_getenv w name default : frame (Update.os_getenv w name default).
Proof. unfold Update.os_getenv. framing. Qed.

Lemma frame_run_git_command w command : frame (Update._run_git_command w command).
Proof. unfold Update._run_git_command, Update.subprocess_run. framing. Qed.

Lemma frame_check_for_updates w : frame (Update.check_for_updates w).
Proof.
  unfold Update.check_for_updates, Update._is_git_repo.
  repeat first [ apply frame_run_git_command | apply frame_path_exists | progress framing ].
Qed.

Lemma frame_perform_update w : frame (Update.perform_update w).
Proof.
  unfold Update.perform_update.
  repeat first [ apply frame_run_git_command | apply frame_log | progress framing ].
Qed.

(** What [auto_update_if_needed] does with the answer of the checker. *)
Ltac framing_all :=
  repeat first
    [ apply frame_check_for_updates | apply frame_perform_update
    | apply frame_run_git_command | apply frame_path_exists
    | apply frame_os_getenv | apply frame_log | progress framing ].

(** ** The orchestrator *)

Lemma read_flag_run (s : Update.State) :
  Update.read_flag s = (Return (Update._AUTO_UPDATE_RAN s), s).
Proof. reflexivity. Qed.

Lemma write_flag_run (b : bool) (s : Update.State) :
  Update.write_flag b s
  = (Return tt, {| Update._AUTO_UPDATE_RAN := b; Update.events := Update.events s |}).
Proof. reflexivity. Qed.

Lemma os_getenv_run w name default (s : Update.State) :
  Update.os_getenv w name default s
  = (Return (match Update.getenv w (Update.events s) name with
             | Some v => v
             | None => default
             end),
     Update.elapse [EvGetenv name] s).
Proof. reflexivity. Qed.

Lemma log_run (message : string) (s : Update.State) :
  Update._log message s
  = (Return tt, Update.elapse [EvPrint ("[Yuuka Auto Update] " +:+ message)] s).
Proof. reflexivity. Qed.

Lemma gate_passes force s :
  Spec.gate_open force s -> Update._AUTO_UPDATE_RAN s && negb force = false.
Proof. intros [-> | ->]; [reflexivity | apply andb_false_r]. Qed.

(** The membership test of line 129. *)
Lemma toggle_test (x : string) :
  bool_decide (x ∈ ({[ "0"; "false"; "off" ]} : gset string)) = true
  <-> In x ["0"; "false"; "off"].
Proof.
  rewrite bool_decide_eq_true. cbn [In]. set_unfold. intuition congruence.
Qed.

Lemma toggle_test_raw w (s : Update.State) :
  let raw := match Update.getenv w (Update.events s) Spec.TOGGLE with
             | Some v => v
             | None => "1"
             end in
  bool_decide (Py.lower (Py.strip raw) ∈ ({[ "0"; "false"; "off" ]} : gset string))
  = true
  <-> Spec.toggle_disables (Update.getenv w (Update.events s) Spec.TOGGLE).
Proof.
  cbv zeta. rewrite toggle_test. unfold Spec.toggle_disables.
  destruct (Update.getenv w (Update.events s) Spec.TOGGLE) as [v|].
  - split; [intros H; now exists v | intros (v' & [= <-] & H); exact H].
  - split; [|intros (v' & [=] & _)].
    cbn. intros [H | [H | [H | []]]]; discriminate.
Qed.

(** The steps of [auto_update_if_needed] up to the test of the toggle. *)
Ltac enter_auto Hgate :=
  unfold Update.auto_update_if_needed;
  rewrite (bind_return _ _ _ _ _ (read_flag_run _)); cbv beta;
  rewrite (gate_passes _ _ Hgate);
  rewrite (bind_return _ _ _ _ _ (write_flag_run _ _)); cbv beta;
  rewrite (bind_return _ _ _ _ _ (os_getenv_run _ _ _ _)); cbv beta zeta;
  cbn [Update.events];
  match goal with
  | |- context [Update.elapse [EvGetenv _] {| Update._AUTO_UPDATE_RAN := true;
                                              Update.events := Update.events ?s |}] =>
      change (Update.elapse [EvGetenv "YUUKA_COMFYUI_AUTO_UPDATE"]
                {| Update._AUTO_UPDATE_RAN := true;
                   Update.events := Update.events s |})
        with (Spec.entered s)
  end;
  change "YUUKA_COMFYUI_AUTO_UPDATE" with Spec.TOGGLE.

Lemma toggle_enabled w s :
  ~ Spec.toggle_disables (Update.getenv w (Update.events s) Spec.TOGGLE) ->
  bool_decide
    (Py.lower (Py.strip match Update.getenv w (Update.events s) Spec.TOGGLE with
                        | Some v => v
                        | None => "1"
                        end) ∈ ({[ "0"; "false"; "off" ]} : gset string)) = false.
Proof.
  intros H. apply not_true_is_false. intros E. apply H.
  now apply (toggle_test_raw w s).
Qed.

Lemma toggle_disabled w s :
  Spec.toggle_disables (Update.getenv w (Update.events s) Spec.TOGGLE) ->
  bool_decide
    (Py.lower (Py.strip match Update.getenv w (Update.events s) Spec.TOGGLE with
                        | Some v => v
                        | None => "1"
                        end) ∈ ({[ "0"; "false"; "off" ]} : gset string)) = true.
Proof. intros H. now apply (toggle_test_raw w s). Qed.

(** A closed gate: the call answers [false] and the process is exactly
    as before. *)
Lemma gate_closed w s :
  Update._AUTO_UPDATE_RAN s = true ->
  Update.auto_update_if_needed w false s = (Return false, s).
Proof.
  intros H. unfold Update.auto_update_if_needed.
  rewrite (bind_return _ _ _ _ _ (read_flag_run _)). cbv beta.
  now rewrite H.
Qed.

(** Every call leaves the flag set, whatever its outcome. *)
Lemma auto_sets_flag w force s :
  Update._AUTO_UPDATE_RAN (snd (Update.auto_update_if_needed w force s)) = true.
Proof.
  unfold Update.auto_update_if_needed.
  rewrite (bind_return _ _ _ _ _ (read_flag_run _)). cbv beta.
  destruct (Update._AUTO_UPDATE_RAN s && negb force) eqn:G.
  - apply andb_true_iff in G as [G _]. exact G.
  - rewrite (bind_return _ _ _ _ _ (write_flag_run _ _)). cbv beta.
    match goal with
    | |- Update._AUTO_UPDATE_RAN (snd (?m ?s0)) = true =>
        assert (F : frame m); [|exact (proj1 (F s0))]
    end.
    apply frame_bind; [apply frame_os_getenv|]. intros raw. cbv zeta.
    framing_all.
Qed.

Lemma elapse_nil (s : Update.State) : Update.elapse [] s = s.
Proof. destruct s. unfold Update.elapse. cbn. now rewrite app_nil_r. Qed.

Lemma elapse_elapse (a b : list Event) (s : Update.State) :
  Update.elapse b (Update.elapse a s) = Update.elapse (a ++ b) s.
Proof. unfold Update.elapse. cbn. now rewrite app_assoc. Qed.

(** With the flag set, a whole lifetime of unforced calls answers
    [false] each time and adds nothing to the history. *)
Lemma lifetime_closed w gaps : forall s,
  Update._AUTO_UPDATE_RAN s = true ->
  Update.lifetime w gaps s
  = (List.repeat (Return false) (length gaps), Update.elapse (List.concat gaps) s).
Proof.
  induction gaps as [|others rest IH]; intros s H; cbn [Update.lifetime].
  - cbn. now rewrite elapse_nil.
  - rewrite (gate_closed w (Update.elapse others s) H).
    rewrite (IH (Update.elapse others s) H), elapse_elapse. reflexivity.
Qed.

(** C1. In a lifetime of N>1 unforced calls, with any other activity in
    between, every call after the first answers [false] and leaves the
    process as it found it: the history after the last call is the one
    after the first call plus the other activity, so no process is
    spawned, no path probed and no line printed again. *)
Theorem one_shot_gate w s others gaps :
  (1 < length (others :: gaps))%nat ->
  exists r1 s1,
    Update.auto_update_if_needed w false (Update.elapse others s) = (r1, s1)
    /\ Update._AUTO_UPDATE_RAN s1 = true
    /\ Update.auto_update_if_needed w false s1 = (Return false, s1)
    /\ Update.lifetime w (others :: gaps) s
       = (r1 :: List.repeat (Return false) (length gaps),
          Update.elapse (List.concat gaps) s1).
Proof.
  intros _.
  destruct (Update.auto_update_if_needed w false (Update.elapse others s))
    as [r1 s1] eqn:E.
  assert (H : Update._AUTO_UPDATE_RAN s1 = true).
  { pose proof (auto_sets_flag w false (Update.elapse others s)) as F.
    now rewrite E in F. }
  exists r1, s1. repeat split; [exact H | now apply gate_closed |].
  cbn [Update.lifetime]. rewrite E, (lifetime_closed w gaps s1 H). reflexivity.
Qed.

Lemma run_git_command_state w command s r s' :
  Update._run_git_command w command s = (r, s') ->
  s' = Update.elapse [EvRun command] s /\ exists x, r = Return x.
Proof.
  unfold Update._run_git_command, Update.subprocess_run, Eff.bind,
    Update.history, Update.emit, Eff.ret.
  cbv beta iota. cbn [Update.events].
  destruct (Update.spawn w (Update.events s) command) as [rc out err| |msg];
    [destruct (rc =? 0)%Z|..]; intros [= <- <-]; eauto.
Qed.

Lemma resolves_state w s l r s' :
  Spec.resolves w s l r s' -> s' = Update.elapse Spec.resolving s.
Proof.
  intros (s1 & s2 & s3 & out & e1 & e2 & e3 & H0 & H1 & _ & H2 & _ & H3 & _).
  injection H0 as _ <-.
  apply run_git_command_state in H1 as [-> _].
  apply run_git_command_state in H2 as [-> _].
  apply run_git_command_state in H3 as [-> _].
  unfold Update.elapse, Spec.resolving. cbn.
  now rewrite <- !app_assoc.
Qed.

Lemma check_for_updates_starts w s :
  exists evs,
    Update.events (snd (Update.check_for_updates w s))
    = Update.events s ++ EvExists ".git" :: evs.
Proof.
  unfold Update.check_for_updates.
  destruct (Update.exists_ w (Update.events s) ".git") eqn:E.
  all: rewrite (bind_return _ _ s _ (Update.elapse [EvExists ".git"] s)
                  (eq_refl : Update._is_git_repo w s = _)); cbv beta; rewrite E.
  all: match goal with
       | |- exists evs, Update.events (snd (?m ?s0)) = _ =>
           assert (F : frame m) by framing_all;
           destruct (F s0) as [_ [evs ->]]; exists evs
       end.
  all: cbn; now rewrite <- app_assoc.
Qed.

(** C2. Through an open gate, a toggle value that trims and lowercases
    to ["0"], ["false"] or ["off"] makes [auto_update_if_needed] print the
    disabled notice and answer [false], with no process spawned; with any
    other value, an unset variable included, the checker runs next. *)
Theorem toggle_switches_flow w force s :
  Spec.gate_open force s ->
  let value := Update.getenv w (Update.events s) Spec.TOGGLE in
  (Spec.toggle_disables value ->
   Update.auto_update_if_needed w force s
   = (Return false,
      Update.elapse
        [EvPrint ("[Yuuka Auto Update] Auto-update disabled via "
                  +:+ "YUUKA_COMFYUI_AUTO_UPDATE environment variable.")]
        (Spec.entered s)))
  /\ (~ Spec.toggle_disables value ->
      exists evs evs',
        Update.events (snd (Update.check_for_updates w (Spec.entered s)))
        = Update.events s ++ EvGetenv Spec.TOGGLE :: EvExists ".git" :: evs
        /\ Update.events (snd (Update.auto_update_if_needed w force s))
           = Update.events (snd (Update.check_for_updates w (Spec.entered s)))
             ++ evs')
  /\ Forall (fun v => Spec.toggle_disables (Some v)) ["0"; "False"; "OFF"]
  /\ ~ Spec.toggle_disables None
  /\ ~ Spec.toggle_disables (Some "1").
Proof.
  intros Hgate value. split; [|split; [|split; [|split]]].
  - intros Hdis. enter_auto Hgate. rewrite (toggle_disabled w s Hdis).
    rewrite (bind_return _ _ _ _ _ (log_run _ _)). reflexivity.
  - intros Hen.
    destruct (check_for_updates_starts w (Spec.entered s)) as [evs Hevs].
    exists evs.
    assert (exists evs', Update.events (snd (Update.auto_update_if_needed w force s))
            = Update.events (snd (Update.check_for_updates w (Spec.entered s)))
              ++ evs') as [evs' Hevs'].
    { enter_auto Hgate. rewrite (toggle_enabled w s Hen).
      unfold Eff.bind at 1.
      destruct (Update.check_for_updates w (Spec.entered s))
        as [[[[status message] dep]|e] s1].
      - match goal with
        | |- exists evs', Update.events (snd (?m ?s0)) = _ =>
            assert (F : frame m) by framing_all;
            destruct (F s0) as [_ [evs' ->]]; now exists evs'
        end.
      - exists []. cbn. now rewrite app_nil_r. }
    exists evs'. split; [|exact Hevs'].
    rewrite Hevs. cbn. now rewrite <- app_assoc.
  - repeat constructor.
    + exists "0". split; [reflexivity | cbn; tauto].
    + exists "False". split; [reflexivity | cbn; tauto].
    + exists "OFF". split; [reflexivity | cbn; tauto].
  - intros (v & [=] & _).
  - intros (v & [= <-] & H). cbn in H. intuition discriminate.
Qed.

Lemma one_shot_gate_witness :
  let w := Sample.behind "requirements.txt" in
  let gaps := [[]; [EvPrint "nodes registered"]] in
  (1 < length ([] :: gaps))%nat
  /\ exists r1 s1,
      Update.auto_update_if_needed w false (Update.elapse [] Update.initial)
      = (r1, s1)
      /\ Update._AUTO_UPDATE_RAN s1 = true
      /\ Update.auto_update_if_needed w false s1 = (Return false, s1)
      /\ Update.lifetime w ([] :: gaps) Update.initial
         = (r1 :: List.repeat (Return false) (length gaps),
            Update.elapse (List.concat gaps) s1).
Proof.
  intros w gaps.
  assert (H : (1 < length ([] :: gaps))%nat) by (cbn; lia).
  exact (conj H (one_shot_gate w Update.initial [] gaps H)).
Defined.

(** Three imports in one process: one update, five spawned commands. *)
Example lifetime_of_three_calls :
  let '(answers, s) :=
    Update.lifetime (Sample.behind "requirements.txt") [[]; []; []] Update.initial in
  answers = [Return true; Return false; Return false]
  /\ length (List.filter (fun e => match e with EvRun _ => true | _ => false end)
               (Update.events s)) = 5%nat.
Proof. vm_compute. split; reflexivity. Qed.

Lemma toggle_switches_flow_witness :
  let w := Sample.world (Some "  OFF
") true true (fun _ => NotFound) in
  Spec.gate_open false Update.initial
  /\ Spec.toggle_disables (Update.getenv w (Update.events Update.initial) Spec.TOGGLE)
  /\ Update.auto_update_if_needed w false Update.initial
     = (Return false,
        {| Update._AUTO_UPDATE_RAN := true;
           Update.events :=
             [EvGetenv "YUUKA_COMFYUI_AUTO_UPDATE";
              EvPrint ("[Yuuka Auto Update] Auto-update disabled via "
                       +:+ "YUUKA_COMFYUI_AUTO_UPDATE environment variable.")] |}).
Proof.
  intros w.
  assert (Hgate : Spec.gate_open false Update.initial) by (left; reflexivity).
  assert (Hdis : Spec.toggle_disables
                   (Update.getenv w (Update.events Update.initial) Spec.TOGGLE)).
  { exists "  OFF
". split; [reflexivity | right; right; left; reflexivity]. }
  exact (conj Hgate (conj Hdis
           (proj1 (toggle_switches_flow w false Update.initial Hgate) Hdis))).
Defined.

(** C6. When the two resolved identifiers are equal, [check_for_updates]
    answers UpToDate with dependency-changed false, and
    [auto_update_if_needed], entered through an open gate with the toggle
    enabled, answers [false] having printed nothing and spawned nothing
    but the fetch and the two resolutions: no apply step. *)
Theorem up_to_date_is_silent w s l r s' force s0 :
  Spec.resolves w s l r s' ->
  l = r ->
  Update.check_for_updates w s
  = (Return (Spec.UpToDate, "Repository already up to date.", false), s')
  /\ (Spec.gate_open force s0 ->
      ~ Spec.toggle_disables (Update.getenv w (Update.events s0) Spec.TOGGLE) ->
      s = Spec.entered s0 ->
      Update.auto_update_if_needed w force s0 = (Return false, s')
      /\ Update.events s'
         = Update.events s0 ++ EvGetenv Spec.TOGGLE :: Spec.resolving).
Proof.
  intros Hres Heq.
  assert (Hcheck : Update.check_for_updates w s
                   = (Return (Spec.UpToDate, "Repository already up to date.", false),
                      s')).
  { rewrite (check_for_updates_resolved _ _ _ _ _ Hres).
    apply eq_opt_true in Heq. now rewrite Heq. }
  split; [exact Hcheck|]. intros Hgate Hen ->. split.
  - enter_auto Hgate. rewrite (toggle_enabled w s0 Hen). step Hcheck.
    reflexivity.
  - rewrite (resolves_state _ _ _ _ _ Hres). cbn. now rewrite <- app_assoc.
Qed.

Lemma up_to_date_is_silent_witness :
  let w := Sample.world None true true
             (Sample.git (Sample.ok "") (Sample.ok "1111111") (Sample.ok "1111111")
                NotFound NotFound) in
  let s := Spec.entered Update.initial in
  let s' := Update.elapse Spec.resolving s in
  Spec.resolves w s (Some "1111111") (Some "1111111") s'
  /\ Some "1111111" = Some "1111111"
  /\ Update.check_for_updates w s
     = (Return (0%Z, "Repository already up to date.", false), s')
  /\ Update.auto_update_if_needed w false Update.initial = (Return false, s')
  /\ Update.events s' = EvGetenv "YUUKA_COMFYUI_AUTO_UPDATE" :: Spec.resolving.
Proof.
  intros w s s'.
  assert (H1 : Spec.resolves w s (Some "1111111") (Some "1111111") s') by resolved.
  assert (H2 : Some "1111111" = Some "1111111") by reflexivity.
  assert (Hgate : Spec.gate_open false Update.initial) by (left; reflexivity).
  assert (Hen : ~ Spec.toggle_disables
                    (Update.getenv w (Update.events Update.initial) Spec.TOGGLE))
    by (intros (v & Hv & _); discriminate Hv).
  destruct (up_to_date_is_silent w s _ _ s' false Update.initial H1 H2)
    as [Hcheck Hauto].
  exact (conj H1 (conj H2 (conj Hcheck (Hauto Hgate Hen eq_refl)))).
Defined.

(** C4, as the code has it. When the fetch fails with the diagnostic
    text ["network unreachable"], [check_for_updates] answers exactly
    (Error, ["Failed to fetch from remote: network unreachable"], false),
    and [auto_update_if_needed], entered through an open gate with the
    toggle enabled, prints that message and answers [false]; the fetch
    is the only command spawned. *)
Theorem fetch_failure_is_reported w s s1 out s2 force s0 :
  Update._is_git_repo w s = (Return true, s1) ->
  Update._run_git_command w ["git"; "fetch"] s1
  = (Return (out, Some "network unreachable"), s2) ->
  Update.check_for_updates w s
  = (Return (Spec.Error, "Failed to fetch from remote: network unreachable", false),
     s2)
  /\ (Spec.gate_open force s0 ->
      ~ Spec.toggle_disables (Update.getenv w (Update.events s0) Spec.TOGGLE) ->
      s = Spec.entered s0 ->
      exists s3,
        Update.auto_update_if_needed w force s0 = (Return false, s3)
        /\ Update.events s3
           = Update.events s0
             ++ [EvGetenv Spec.TOGGLE; EvExists ".git"; EvRun ["git"; "fetch"];
                 EvPrint ("[Yuuka Auto Update] "
                          +:+ "Failed to fetch from remote: network unreachable")]).
Proof.
  intros Hrepo Hfetch.
  assert (Hcheck : Update.check_for_updates w s
                   = (Return (Spec.Error,
                              "Failed to fetch from remote: network unreachable",
                              false), s2)).
  { unfold Update.check_for_updates. step Hrepo. cbn [negb]. step Hfetch.
    reflexivity. }
  split; [exact Hcheck|]. intros Hgate Hen ->.
  eexists. split.
  - enter_auto Hgate. rewrite (toggle_enabled w s0 Hen). step Hcheck.
    change (Spec.Error =? Update.UPDATE_STATUS "ERROR")%Z with true.
    cbv iota. rewrite (bind_return _ _ _ _ _ (log_run _ _)). reflexivity.
  - injection Hrepo as _ <-.
    apply run_git_command_state in Hfetch as [-> _].
    cbn. now rewrite <- !app_assoc.
Qed.

Lemma fetch_failure_is_reported_witness :
  let w := Sample.world None true true
             (Sample.git (Exited 128 "" "network unreachable
") NotFound NotFound NotFound NotFound) in
  let s := Spec.entered Update.initial in
  let s1 := Update.elapse [EvExists ".git"] s in
  let s2 := Update.elapse [EvRun ["git"; "fetch"]] s1 in
  Update._is_git_repo w s = (Return true, s1)
  /\ Update._run_git_command w ["git"; "fetch"] s1
     = (Return (None, Some "network unreachable"), s2)
  /\ Update.check_for_updates w s
     = (Return ((-1)%Z, "Failed to fetch from remote: network unreachable", false),
        s2)
  /\ exists s3,
      Update.auto_update_if_needed w false Update.initial = (Return false, s3)
      /\ Update.events s3
         = [EvGetenv "YUUKA_COMFYUI_AUTO_UPDATE"; EvExists ".git";
            EvRun ["git"; "fetch"];
            EvPrint ("[Yuuka Auto Update] "
                     +:+ "Failed to fetch from remote: network unreachable")].
Proof.
  intros w s s1 s2.
  assert (H1 : Update._is_git_repo w s = (Return true, s1)) by reflexivity.
  assert (H2 : Update._run_git_command w ["git"; "fetch"] s1
               = (Return (None, Some "network unreachable"), s2)) by reflexivity.
  assert (Hgate : Spec.gate_open false Update.initial) by (left; reflexivity).
  assert (Hen : ~ Spec.toggle_disables
                    (Update.getenv w (Update.events Update.initial) Spec.TOGGLE))
    by (intros (v & Hv & _); discriminate Hv).
  destruct (fetch_failure_is_reported w s s1 None s2 false Update.initial H1 H2)
    as [Hcheck Hauto].
  exact (conj H1 (conj H2 (conj Hcheck (Hauto Hgate Hen eq_refl)))).
Defined.

(** C4 as worded does not hold: the message of the answer starts with a
    capital letter. *)
Lemma fetch_failure_message_differs :
  fst (Update.check_for_updates
         (Sample.world None true true
            (Sample.git (Exited 128 "" "network unreachable")
               NotFound NotFound NotFound NotFound))
         Update.initial)
  <> Return (Spec.Error, "failed to fetch from remote: network unreachable", false).
Proof. vm_compute. discriminate. Qed.

(** ** The command runner *)

(** The runner always answers, and answers as its four cases say. *)
Lemma run_git_command_cases w command s :
  exists output error,
    Update._run_git_command w command s
    = (Return (output, error), Update.elapse [EvRun command] s)
    /\ match Update.spawn w (Update.events s) command with
       | Exited returncode stdout stderr =>
           (returncode = 0%Z -> output = Some (Py.strip stdout) /\ error = None)
           /\ (returncode <> 0%Z ->
               output = None
               /\ (Py.strip stderr <> "" -> error = Some (Py.strip stderr))
               /\ (Py.strip stderr = "" -> error = Some (Py.strip stdout)))
       | NotFound =>
           output = None
           /\ error = Some "Git executable not found. Please install Git and make sure it is on PATH."
       | Failed msg => output = None /\ error = Some msg
       end.
Proof.
  unfold Update._run_git_command, Update.subprocess_run, Eff.bind,
    Update.history, Update.emit, Eff.ret.
  cbv beta iota. cbn [Update.events].
  destruct (Update.spawn w (Update.events s) command) as [rc out err| |msg].
  - destruct (Z.eqb_spec rc 0) as [->|Hrc].
    + do 2 eexists. split; [reflexivity|]. split; [tauto | congruence].
    + do 2 eexists. split; [reflexivity|]. split; [congruence|]. intros _.
      split; [reflexivity|].
      destruct (String.eqb_spec (Py.strip err) ""); cbn [negb]; split; congruence.
  - do 2 eexists. split; [reflexivity|]. split; reflexivity.
  - do 2 eexists. split; [reflexivity|]. split; reflexivity.
Qed.

Lemma run_git_command_silent w command s :
  Spec.silent (Update.spawn w (Update.events s) command) ->
  Update._run_git_command w command s
  = (Return (None, Some ""), Update.elapse [EvRun command] s).
Proof.
  intros (rc & out & err & Hsp & Hrc & Hout & Herr).
  destruct (run_git_command_cases w command s) as (o & e & -> & H).
  rewrite Hsp in H. destruct H as [_ H]. destruct (H Hrc) as (-> & _ & He).
  rewrite (He Herr), Hout. reflexivity.
Qed.

(** C5 at a command that exits with code 1 and two empty streams: the
    error text of the runner is the empty string, which callers read as
    no error; no generic description stands in for it. *)
Theorem silent_failure_has_empty_error_text :
  let w := Sample.world None true true (fun _ => Exited 1 "" "") in
  Update._run_git_command w ["git"; "fetch"] Update.initial
  = (Return (None, Some ""), Update.elapse [EvRun ["git"; "fetch"]] Update.initial)
  /\ Py.truthy (Some "") = false.
Proof. split; reflexivity. Qed.

Lemma events_after_run {B} w command (k : option string * option string -> Update.M B) s :
  (forall x, frame (k x)) ->
  exists evs,
    Update.events (snd (Eff.bind (Update._run_git_command w command) k s))
    = Update.events s ++ EvRun command :: evs.
Proof.
  intros Hk. destruct (run_git_command_cases w command s) as (o & e & Hrun & _).
  rewrite (bind_return _ _ _ _ _ Hrun).
  destruct (Hk (o, e) (Update.elapse [EvRun command] s)) as [_ [evs ->]].
  exists evs. cbn. now rewrite <- app_assoc.
Qed.

(** C9. A command that exits non-zero with both streams empty after
    trimming gives the empty string as error text, and each caller takes
    it for a success: after such a fetch [check_for_updates] goes on to
    resolve the local head; an identifier resolved that way is [None] and
    is compared like any other (two of them make the answer UpToDate, one
    of them is listed against as ["None"]); after such a pull
    [perform_update] answers [true]. *)
Theorem silent_failure_passes_for_success w :
  (forall command s,
      Spec.silent (Update.spawn w (Update.events s) command) ->
      Update._run_git_command w command s
      = (Return (None, Some ""), Update.elapse [EvRun command] s)
      /\ Py.truthy (Some "") = false)
  /\ (forall s s1,
         Update._is_git_repo w s = (Return true, s1) ->
         Spec.silent (Update.spawn w (Update.events s1) ["git"; "fetch"]) ->
         exists evs,
           Update.events (snd (Update.check_for_updates w s))
           = Update.events s1
             ++ EvRun ["git"; "fetch"] :: EvRun ["git"; "rev-parse"; "HEAD"] :: evs)
  /\ (forall s s1 out e1 s2 r e3 s4,
         Update._is_git_repo w s = (Return true, s1) ->
         Update._run_git_command w ["git"; "fetch"] s1 = (Return (out, e1), s2) ->
         Py.truthy e1 = false ->
         Spec.silent (Update.spawn w (Update.events s2) ["git"; "rev-parse"; "HEAD"]) ->
         Update._run_git_command w ["git"; "rev-parse"; "@{u}"]
           (Update.elapse [EvRun ["git"; "rev-parse"; "HEAD"]] s2)
         = (Return (r, e3), s4) ->
         Py.truthy e3 = false ->
         (r = None ->
          Update.check_for_updates w s
          = (Return (Spec.UpToDate, "Repository already up to date.", false), s4))
         /\ (forall x, r = Some x ->
             exists evs,
               Update.events (snd (Update.check_for_updates w s))
               = Update.events s4
                 ++ EvRun ["git"; "diff"; "--name-only"; "None.." +:+ x] :: evs))
  /\ (forall s,
         Spec.silent
           (Update.spawn w
              (Update.events s
               ++ [EvPrint ("[Yuuka Auto Update] Attempting to fast-forward "
                            +:+ "repository with 'git pull --ff-only'.")])
              ["git"; "pull"; "--ff-only"]) ->
         Update.perform_update w s
         = (Return true,
            Update.elapse
              [EvPrint ("[Yuuka Auto Update] Attempting to fast-forward "
                        +:+ "repository with 'git pull --ff-only'.");
               EvRun ["git"; "pull"; "--ff-only"];
               EvPrint "[Yuuka Auto Update] Repository already up to date after pull."]
              s)).
Proof.
  split; [|split; [|split]].
  - intros command s H. split; [now apply run_git_command_silent | reflexivity].
  - intros s s1 Hrepo Hsilent. unfold Update.check_for_updates.
    step Hrepo. cbn [negb]. step (run_git_command_silent w _ s1 Hsilent).
    cbn [Py.truthy String.eqb negb].
    match goal with
    | |- exists evs, Update.events (snd (Eff.bind _ ?k ?s0)) = _ =>
        destruct (events_after_run w ["git"; "rev-parse"; "HEAD"] k s0) as [evs ->];
          [intros [? ?]; framing_all|]
    end.
    exists evs. cbn. now rewrite <- app_assoc.
  - intros s s1 out e1 s2 r e3 s4 Hrepo Hfetch T1 Hsilent Hup T3.
    assert (Hres : Spec.resolves w s None r s4).
    { exists s1, s2, (Update.elapse [EvRun ["git"; "rev-parse"; "HEAD"]] s2),
        out, e1, (Some ""), e3.
      repeat split; try assumption. now apply run_git_command_silent. }
    split.
    + intros ->. now rewrite (check_for_updates_resolved _ _ _ _ _ Hres).
    + intros x ->. rewrite (check_for_updates_resolved _ _ _ _ _ Hres).
      cbn [Py.eq_opt].
      apply events_after_run. intros [? ?]. framing_all.
  - intros s Hsilent. unfold Update.perform_update.
    rewrite (bind_return _ _ _ _ _ (log_run _ _)).
    pose proof (run_git_command_silent w ["git"; "pull"; "--ff-only"]
                  (Update.elapse
                     [EvPrint ("[Yuuka Auto Update] Attempting to fast-forward "
                               +:+ "repository with 'git pull --ff-only'.")] s)
                  Hsilent) as Hpull.
    rewrite (bind_return _ _ _ _ _ Hpull).
    cbn [Py.truthy String.eqb negb].
    rewrite (bind_return _ _ _ _ _ (log_run _ _)).
    unfold Eff.ret. rewrite !elapse_elapse. reflexivity.
Qed.

Lemma silent_failure_passes_for_success_witness :
  let w := Sample.mute in
  let attempt := EvPrint ("[Yuuka Auto Update] Attempting to fast-forward "
                          +:+ "repository with 'git pull --ff-only'.") in
  let s1 := Update.elapse [EvExists ".git"] Update.initial in
  let s2 := Update.elapse [EvRun ["git"; "fetch"]] s1 in
  let s3 := Update.elapse [EvRun ["git"; "rev-parse"; "HEAD"]] s2 in
  let s4 := Update.elapse [EvRun ["git"; "rev-parse"; "@{u}"]] s3 in
  (forall h command, Spec.silent (Update.spawn w h command))
  /\ Update._run_git_command w ["git"; "fetch"] s1 = (Return (None, Some ""), s2)
  /\ Update._is_git_repo w Update.initial = (Return true, s1)
  /\ Update._run_git_command w ["git"; "rev-parse"; "@{u}"] s3
     = (Return (None, Some ""), s4)
  /\ Update.check_for_updates w Update.initial
     = (Return (0%Z, "Repository already up to date.", false), s4)
  /\ Update.perform_update w Update.initial
     = (Return true,
        Update.elapse
          [attempt; EvRun ["git"; "pull"; "--ff-only"];
           EvPrint "[Yuuka Auto Update] Repository already up to date after pull."]
          Update.initial).
Proof.
  intros w attempt s1 s2 s3 s4.
  assert (Hs : forall h command, Spec.silent (Update.spawn w h command)).
  { intros h command. exists 1%Z, " ", "". repeat split. discriminate. }
  assert (Hrepo : Update._is_git_repo w Update.initial = (Return true, s1))
    by reflexivity.
  assert (Hup : Update._run_git_command w ["git"; "rev-parse"; "@{u}"] s3
                = (Return (None, Some ""), s4)) by reflexivity.
  destruct (silent_failure_passes_for_success w) as (H1 & _ & H3 & H4).
  pose proof (proj1 (H1 ["git"; "fetch"] s1 (Hs _ _))) as Hfetch.
  exact (conj Hs
           (conj Hfetch
              (conj Hrepo
                 (conj Hup
                    (conj (proj1 (H3 Update.initial s1 None (Some "") s2 None
                                    (Some "") s4 Hrepo Hfetch eq_refl (Hs _ _)
                                    Hup eq_refl) eq_refl)
                       (H4 Update.initial (Hs _ _))))))).
Defined.

(** ** The bootstrap loader *)

Lemma try_except_answers {S} (m : Eff.M S unit) (handler : exn -> Eff.M S unit) :
  (forall e s, exists s', handler e s = (Return tt, s')) ->
  forall s, exists s', Eff.try_except m handler s = (Return tt, s').
Proof.
  intros H s. unfold Eff.try_except.
  destruct (m s) as [[[]|e] s1]; [now exists s1 | apply H].
Qed.

Section Loader.
Variable host : Bootstrap.Host.
Variable p : Bootstrap.Process.
Hypothesis unregistered :
  Bootstrap.sys_modules p !! Bootstrap._MODULE_NAME = None.

Local Abbreviation probed := (Bootstrap.trace p ++ [EvExists "update.py"]).

Lemma load_absent :
  Update.exists_ (Bootstrap.world host) (Bootstrap.trace p) "update.py" = false ->
  Bootstrap._load_update_module host p
  = (Return None,
     {| Bootstrap.sys_modules := Bootstrap.sys_modules p;
        Bootstrap.trace := probed |}).
Proof.
  intros Habsent.
  unfold Bootstrap._load_update_module, Bootstrap.sys_modules_get,
    Bootstrap.path_exists, Bootstrap.history, Bootstrap.emit, Eff.bind, Eff.ret.
  cbv beta iota. rewrite unregistered. cbn [Bootstrap.trace].
  rewrite Habsent. reflexivity.
Qed.

Lemma load_without_spec :
  Update.exists_ (Bootstrap.world host) (Bootstrap.trace p) "update.py" = true ->
  Bootstrap.spec_from_file_location host probed = false ->
  Bootstrap._load_update_module host p
  = (Return None,
     {| Bootstrap.sys_modules := Bootstrap.sys_modules p;
        Bootstrap.trace := probed |}).
Proof.
  intros Hpresent Hspec.
  unfold Bootstrap._load_update_module, Bootstrap.sys_modules_get,
    Bootstrap.path_exists, Bootstrap.find_spec,
    Bootstrap.history, Bootstrap.emit, Eff.bind, Eff.ret.
  cbv beta iota. rewrite unregistered. cbn [Bootstrap.trace].
  rewrite Hpresent. cbn [negb Bootstrap.trace]. rewrite Hspec. reflexivity.
Qed.

Lemma load_raises (e : exn) :
  Update.exists_ (Bootstrap.world host) (Bootstrap.trace p) "update.py" = true ->
  Bootstrap.spec_from_file_location host probed = true ->
  Bootstrap.exec_module host probed = Some e ->
  Bootstrap._load_update_module host p
  = (Raise e,
     {| Bootstrap.sys_modules := Bootstrap.sys_modules p;
        Bootstrap.trace := probed ++ [EvExec "update.py"] |}).
Proof.
  intros Hpresent Hspec Hexec.
  unfold Bootstrap._load_update_module, Bootstrap.sys_modules_get,
    Bootstrap.path_exists, Bootstrap.find_spec, Bootstrap.run_exec_module,
    Bootstrap.sys_modules_set, Bootstrap.sys_modules_pop, Eff.try_except,
    Bootstrap.history, Bootstrap.emit, Eff.bind, Eff.ret, Eff.raise.
  cbv beta iota. rewrite unregistered. cbn [Bootstrap.trace Bootstrap.sys_modules].
  rewrite Hpresent. cbn [negb Bootstrap.trace]. rewrite Hspec.
  cbn [negb]. cbv beta. cbn [Bootstrap.trace Bootstrap.sys_modules].
  rewrite Hexec. cbv beta iota. cbn [Bootstrap.trace Bootstrap.sys_modules].
  now rewrite (delete_insert_id _ _ _ unregistered).
Qed.

Lemma load_registers :
  Update.exists_ (Bootstrap.world host) (Bootstrap.trace p) "update.py" = true ->
  Bootstrap.spec_from_file_location host probed = true ->
  Bootstrap.exec_module host probed = None ->
  Bootstrap._load_update_module host p
  = (Return (Some Bootstrap.loaded_module),
     {| Bootstrap.sys_modules :=
          <[Bootstrap._MODULE_NAME := Bootstrap.loaded_module]>
            (Bootstrap.sys_modules p);
        Bootstrap.trace := probed ++ [EvExec "update.py"] |}).
Proof.
  intros Hpresent Hspec Hexec.
  unfold Bootstrap._load_update_module, Bootstrap.sys_modules_get,
    Bootstrap.path_exists, Bootstrap.find_spec, Bootstrap.run_exec_module,
    Bootstrap.sys_modules_set, Bootstrap.sys_modules_pop, Eff.try_except,
    Bootstrap.history, Bootstrap.emit, Eff.bind, Eff.ret, Eff.raise.
  cbv beta iota. rewrite unregistered. cbn [Bootstrap.trace Bootstrap.sys_modules].
  rewrite Hpresent. cbn [negb Bootstrap.trace]. rewrite Hspec.
  cbn [negb]. cbv beta. cbn [Bootstrap.trace Bootstrap.sys_modules].
  rewrite Hexec. cbv beta iota. cbn [Bootstrap.trace Bootstrap.sys_modules].
  now rewrite insert_insert_eq.
Qed.
End Loader.

(** C8, as the code has it. [ensure_auto_update] always returns to its
    caller. With no module registered under [_MODULE_NAME]: if
    [update.py] is absent, or no spec with a loader is found for it, it
    returns after the probe alone, printing nothing and leaving the
    registry alone; if executing the file raises, the exception is printed
    after the fixed prefix and the registry is as it was before the
    call, the name unregistered, so that a later call probes and
    executes the file again, and registers the module if that succeeds. *)
Theorem ensure_auto_update_swallows host p :
  (exists p', Bootstrap.ensure_auto_update host p = (Return tt, p'))
  /\ (Bootstrap.sys_modules p !! Bootstrap._MODULE_NAME = None ->
      let probed := Bootstrap.trace p ++ [EvExists "update.py"] in
      (Update.exists_ (Bootstrap.world host) (Bootstrap.trace p) "update.py" = false ->
       Bootstrap.ensure_auto_update host p
       = (Return tt,
          {| Bootstrap.sys_modules := Bootstrap.sys_modules p;
             Bootstrap.trace := probed |}))
      /\ (Update.exists_ (Bootstrap.world host) (Bootstrap.trace p) "update.py"
          = true ->
          Bootstrap.spec_from_file_location host probed = false ->
          Bootstrap.ensure_auto_update host p
          = (Return tt,
             {| Bootstrap.sys_modules := Bootstrap.sys_modules p;
                Bootstrap.trace := probed |}))
      /\ (forall e,
             Update.exists_ (Bootstrap.world host) (Bootstrap.trace p) "update.py"
             = true ->
             Bootstrap.spec_from_file_location host probed = true ->
             Bootstrap.exec_module host probed = Some e ->
             exists p',
               Bootstrap.ensure_auto_update host p = (Return tt, p')
               /\ Bootstrap.sys_modules p' = Bootstrap.sys_modules p
               /\ Bootstrap.sys_modules p' !! Bootstrap._MODULE_NAME = None
               /\ Bootstrap.trace p'
                  = probed
                    ++ [EvExec "update.py";
                        EvPrint ("[Yuuka Auto Update] Skipping due to unexpected error: "
                                 +:+ exn_str e)])
      /\ (Update.exists_ (Bootstrap.world host) (Bootstrap.trace p) "update.py"
          = true ->
          Bootstrap.spec_from_file_location host probed = true ->
          Bootstrap.exec_module host probed = None ->
          Bootstrap._load_update_module host p
          = (Return (Some Bootstrap.loaded_module),
             {| Bootstrap.sys_modules :=
                  <[Bootstrap._MODULE_NAME := Bootstrap.loaded_module]>
                    (Bootstrap.sys_modules p);
                Bootstrap.trace := probed ++ [EvExec "update.py"] |}))).
Proof.
  split.
  - apply try_except_answers. intros e s. eexists. reflexivity.
  - intros Hnone probed. split; [|split; [|split]].
    + intros Habsent. unfold Bootstrap.ensure_auto_update, Eff.try_except.
      rewrite (bind_return _ _ _ _ _ (load_absent host p Hnone Habsent)).
      reflexivity.
    + intros Hpresent Hspec. unfold Bootstrap.ensure_auto_update, Eff.try_except.
      rewrite (bind_return _ _ _ _ _ (load_without_spec host p Hnone Hpresent Hspec)).
      reflexivity.
    + intros e Hpresent Hspec Hexec. eexists.
      split; [|split; [|split]].
      * unfold Bootstrap.ensure_auto_update, Eff.try_except.
        rewrite (bind_raise _ _ _ _ _ (load_raises host p Hnone e Hpresent Hspec Hexec)).
        reflexivity.
      * reflexivity.
      * exact Hnone.
      * cbn [Bootstrap.trace]. now rewrite <- app_assoc.
    + intros Hpresent Hspec Hexec.
      exact (load_registers host p Hnone Hpresent Hspec Hexec).
Qed.

Lemma ensure_auto_update_swallows_witness :
  let e := {| exn_class := "SyntaxError"; exn_str := "invalid syntax" |} in
  let host := Sample.host true (Some e) in
  Bootstrap.sys_modules Sample.fresh !! Bootstrap._MODULE_NAME = None
  /\ Update.exists_ (Bootstrap.world host) [] "update.py" = true
  /\ Bootstrap.spec_from_file_location host [EvExists "update.py"] = true
  /\ Bootstrap.exec_module host [EvExists "update.py"] = Some e
  /\ exists p',
      Bootstrap.ensure_auto_update host Sample.fresh = (Return tt, p')
      /\ Bootstrap.sys_modules p' = ∅
      /\ Bootstrap.sys_modules p' !! Bootstrap._MODULE_NAME = None
      /\ Bootstrap.trace p'
         = [EvExists "update.py"; EvExec "update.py";
            EvPrint "[Yuuka Auto Update] Skipping due to unexpected error: invalid syntax"].
Proof.
  intros e host.
  assert (H0 : Bootstrap.sys_modules Sample.fresh !! Bootstrap._MODULE_NAME = None)
    by apply lookup_empty.
  assert (H1 : Update.exists_ (Bootstrap.world host) [] "update.py" = true)
    by reflexivity.
  assert (H2 : Bootstrap.spec_from_file_location host [EvExists "update.py"] = true)
    by reflexivity.
  assert (H3 : Bootstrap.exec_module host [EvExists "update.py"] = Some e)
    by reflexivity.
  exact (conj H0 (conj H1 (conj H2 (conj H3
           (proj1 (proj2 (proj2 (proj2 (ensure_auto_update_swallows host Sample.fresh)
                                   H0)))
              e H1 H2 H3))))).
Defined.

(** C8 as worded does not hold: with [update.py] absent, the call
    returns after the probe and prints nothing. *)
Lemma absent_file_is_not_logged :
  Bootstrap.ensure_auto_update (Sample.host false None) Sample.fresh
  = (Return tt,
     {| Bootstrap.sys_modules := ∅; Bootstrap.trace := [EvExists "update.py"] |}).
Proof.
  unfold Bootstrap.ensure_auto_update, Eff.try_except.
  rewrite (bind_return _ _ _ _ _
             (load_absent (Sample.host false None) Sample.fresh (lookup_empty _)
                eq_refl)).
  reflexivity.
Qed.

(** A host start with a loadable [update.py]: the module is registered
    with its flag set, and a second call finds it and does nothing. *)
Example two_imports :
  let host := Sample.host true None in
  let '(_, p1) := Bootstrap.ensure_auto_update host Sample.fresh in
  let '(_, p2) := Bootstrap.ensure_auto_update host p1 in
  Bootstrap.trace p2 = Bootstrap.trace p1
  /\ Bootstrap.trace p1
     = [EvExists "update.py"; EvExec "update.py";
        EvGetenv "YUUKA_COMFYUI_AUTO_UPDATE"; EvExists ".git";
        EvRun ["git"; "fetch"]; EvRun ["git"; "rev-parse"; "HEAD"];
        EvRun ["git"; "rev-parse"; "@{u}"]].
Proof. vm_compute. split; reflexivity. Qed.

(** * Further properties of the code *)

(** ** The checker, step by step *)

Lemma is_git_repo_run w s :
  Update._is_git_repo w s
  = (Return (Update.exists_ w (Update.events s) ".git"),
     Update.elapse [EvExists ".git"] s).
Proof. reflexivity. Qed.

Lemma path_exists_run w path s :
  Update.path_exists w path s
  = (Return (Update.exists_ w (Update.events s) path),
     Update.elapse [EvExists path] s).
Proof. reflexivity. Qed.

(** The orchestrator, through an open gate with the toggle enabled, on
    an answer of the checker that is Error or Skipped: the message is
    printed and the call answers [false]. *)
Lemma auto_on_refusal w force s0 status message dep s1 :
  Spec.gate_open force s0 ->
  ~ Spec.toggle_disables (Update.getenv w (Update.events s0) Spec.TOGGLE) ->
  Update.check_for_updates w (Spec.entered s0) = (Return (status, message, dep), s1) ->
  status = Spec.Error \/ status = Spec.Skipped ->
  Update.auto_update_if_needed w force s0
  = (Return false, Update.elapse [Obs.logged message] s1).
Proof.
  intros Hgate Hen Hcheck Hst.
  enter_auto Hgate. rewrite (toggle_enabled w s0 Hen). step Hcheck.
  destruct Hst as [-> | ->].
  - change (Spec.Error =? Update.UPDATE_STATUS "ERROR")%Z with true. cbv iota.
    rewrite (bind_return _ _ _ _ _ (log_run _ _)). reflexivity.
  - change (Spec.Skipped =? Update.UPDATE_STATUS "ERROR")%Z with false.
    change (Spec.Skipped =? Update.UPDATE_STATUS "SKIP")%Z with true. cbv iota.
    rewrite (bind_return _ _ _ _ _ (log_run _ _)). reflexivity.
Qed.

(** X1. Outside a git checkout (no [.git] under the repository root) the
    checker answers Skipped after the probe alone, and the orchestrator
    prints the skip message and answers [false]: no command is spawned. *)
Theorem not_a_repository_is_skipped w s force s0 :
  Update.exists_ w (Update.events s) ".git" = false ->
  Update.check_for_updates w s
  = (Return (Spec.Skipped, "Git repository not detected; auto-update skipped.", false),
     Update.elapse [EvExists ".git"] s)
  /\ (Spec.gate_open force s0 ->
      ~ Spec.toggle_disables (Update.getenv w (Update.events s0) Spec.TOGGLE) ->
      s = Spec.entered s0 ->
      Update.auto_update_if_needed w force s0
      = (Return false,
         Update.elapse
           [EvGetenv Spec.TOGGLE; EvExists ".git";
            Obs.logged "Git repository not detected; auto-update skipped."]
           {| Update._AUTO_UPDATE_RAN := true; Update.events := Update.events s0 |})).
Proof.
  intros Hno.
  assert (Hcheck : Update.check_for_updates w s
                   = (Return (Spec.Skipped,
                              "Git repository not detected; auto-update skipped.",
                              false), Update.elapse [EvExists ".git"] s)).
  { unfold Update.check_for_updates. step (is_git_repo_run w s).
    now rewrite Hno. }
  split; [exact Hcheck|]. intros Hgate Hen ->.
  rewrite (auto_on_refusal w force s0 _ _ _ _ Hgate Hen Hcheck (or_intror eq_refl)).
  unfold Update.elapse, Spec.entered. cbn. now rewrite <- !app_assoc.
Qed.

Lemma not_a_repository_is_skipped_witness :
  let w := Sample.world None false true (fun _ => NotFound) in
  let s := Spec.entered Update.initial in
  Update.exists_ w (Update.events s) ".git" = false
  /\ Update.check_for_updates w s
     = (Return (2%Z, "Git repository not detected; auto-update skipped.", false),
        Update.elapse [EvExists ".git"] s)
  /\ Update.auto_update_if_needed w false Update.initial
     = (Return false,
        {| Update._AUTO_UPDATE_RAN := true;
           Update.events :=
             [EvGetenv "YUUKA_COMFYUI_AUTO_UPDATE"; EvExists ".git";
              EvPrint "[Yuuka Auto Update] Git repository not detected; auto-update skipped."] |}).
Proof.
  intros w s.
  assert (H : Update.exists_ w (Update.events s) ".git" = false) by reflexivity.
  assert (Hgate : Spec.gate_open false Update.initial) by (left; reflexivity).
  assert (Hen : ~ Spec.toggle_disables
                    (Update.getenv w (Update.events Update.initial) Spec.TOGGLE))
    by (intros (v & Hv & _); discriminate Hv).
  destruct (not_a_repository_is_skipped w s false Update.initial H) as [Hc Ha].
  exact (conj H (conj Hc (Ha Hgate Hen eq_refl))).
Defined.

(** X2. When the local head cannot be resolved (the command reports an
    error text that is not empty), the checker answers Error with
    ["Cannot determine local HEAD: "] followed by that text, and the
    upstream is not asked for: the last event is the failed command. *)
Theorem local_head_failure_is_terminal w s s1 out e1 s2 o err s3 :
  Update._is_git_repo w s = (Return true, s1) ->
  Update._run_git_command w ["git"; "fetch"] s1 = (Return (out, e1), s2) ->
  Py.truthy e1 = false ->
  Update._run_git_command w ["git"; "rev-parse"; "HEAD"] s2
  = (Return (o, Some err), s3) ->
  err <> "" ->
  Update.check_for_updates w s
  = (Return (Spec.Error, "Cannot determine local HEAD: " +:+ err, false), s3)
  /\ s3 = Update.elapse
            [EvExists ".git"; EvRun ["git"; "fetch"];
             EvRun ["git"; "rev-parse"; "HEAD"]] s.
Proof.
  intros Hrepo Hfetch T1 Hhead Herr. split.
  - unfold Update.check_for_updates. step Hrepo. cbn [negb]. step Hfetch.
    rewrite T1. step Hhead. now rewrite (truthy_some _ Herr).
  - injection Hrepo as _ <-.
    apply run_git_command_state in Hfetch as [-> _].
    apply run_git_command_state in Hhead as [-> _].
    unfold Update.elapse. cbn. now rewrite <- !app_assoc.
Qed.

Lemma local_head_failure_is_terminal_witness :
  let w := Sample.world None true true
             (Sample.git (Sample.ok "") (Exited 128 "" "fatal: bad revision 'HEAD'")
                NotFound NotFound NotFound) in
  let s1 := Update.elapse [EvExists ".git"] Update.initial in
  let s2 := Update.elapse [EvRun ["git"; "fetch"]] s1 in
  let s3 := Update.elapse [EvRun ["git"; "rev-parse"; "HEAD"]] s2 in
  Update._is_git_repo w Update.initial = (Return true, s1)
  /\ Update._run_git_command w ["git"; "fetch"] s1 = (Return (Some "", None), s2)
  /\ Py.truthy None = false
  /\ Update._run_git_command w ["git"; "rev-parse"; "HEAD"] s2
     = (Return (None, Some "fatal: bad revision 'HEAD'"), s3)
  /\ "fatal: bad revision 'HEAD'" <> ""
  /\ Update.check_for_updates w Update.initial
     = (Return ((-1)%Z, "Cannot determine local HEAD: fatal: bad revision 'HEAD'",
                false), s3).
Proof.
  intros w s1 s2 s3.
  assert (H1 : Update._is_git_repo w Update.initial = (Return true, s1))
    by reflexivity.
  assert (H2 : Update._run_git_command w ["git"; "fetch"] s1
               = (Return (Some "", None), s2)) by reflexivity.
  assert (H3 : Py.truthy None = false) by reflexivity.
  assert (H4 : Update._run_git_command w ["git"; "rev-parse"; "HEAD"] s2
               = (Return (None, Some "fatal: bad revision 'HEAD'"), s3))
    by reflexivity.
  assert (H5 : "fatal: bad revision 'HEAD'" <> "") by discriminate.
  exact (conj H1 (conj H2 (conj H3 (conj H4 (conj H5
           (proj1 (local_head_failure_is_terminal w _ _ _ _ _ _ _ _
                     H1 H2 H3 H4 H5))))))).
Defined.

(** X3. When the upstream cannot be resolved (typically no tracking
    branch), the checker answers Error with a message that asks whether
    the branch tracks a remote and ends with the error text; nothing is
    compared or listed. *)
Theorem upstream_failure_is_terminal w s s1 out e1 s2 l e2 s3 o err s4 :
  Update._is_git_repo w s = (Return true, s1) ->
  Update._run_git_command w ["git"; "fetch"] s1 = (Return (out, e1), s2) ->
  Py.truthy e1 = false ->
  Update._run_git_command w ["git"; "rev-parse"; "HEAD"] s2
  = (Return (l, e2), s3) ->
  Py.truthy e2 = false ->
  Update._run_git_command w ["git"; "rev-parse"; "@{u}"] s3
  = (Return (o, Some err), s4) ->
  err <> "" ->
  Update.check_for_updates w s
  = (Return (Spec.Error,
             "Cannot determine upstream commit. Is this branch tracking a remote? Git error: "
             +:+ err, false), s4)
  /\ s4 = Update.elapse Spec.resolving s.
Proof.
  intros Hrepo Hfetch T1 Hhead T2 Hup Herr. split.
  - unfold Update.check_for_updates. step Hrepo. cbn [negb]. step Hfetch.
    rewrite T1. step Hhead. rewrite T2. step Hup.
    now rewrite (truthy_some _ Herr).
  - injection Hrepo as _ <-.
    apply run_git_command_state in Hfetch as [-> _].
    apply run_git_command_state in Hhead as [-> _].
    apply run_git_command_state in Hup as [-> _].
    unfold Update.elapse, Spec.resolving. cbn. now rewrite <- !app_assoc.
Qed.

Lemma upstream_failure_is_terminal_witness :
  let w := Sample.world None true true
             (Sample.git (Sample.ok "") (Sample.ok "1111111")
                (Exited 128 "" "fatal: no upstream configured for branch 'dev'")
                NotFound NotFound) in
  let s1 := Update.elapse [EvExists ".git"] Update.initial in
  let s2 := Update.elapse [EvRun ["git"; "fetch"]] s1 in
  let s3 := Update.elapse [EvRun ["git"; "rev-parse"; "HEAD"]] s2 in
  let s4 := Update.elapse [EvRun ["git"; "rev-parse"; "@{u}"]] s3 in
  let err := "fatal: no upstream configured for branch 'dev'" in
  Update._is_git_repo w Update.initial = (Return true, s1)
  /\ Update._run_git_command w ["git"; "fetch"] s1 = (Return (Some "", None), s2)
  /\ Update._run_git_command w ["git"; "rev-parse"; "HEAD"] s2
     = (Return (Some "1111111", None), s3)
  /\ Update._run_git_command w ["git"; "rev-parse"; "@{u}"] s3
     = (Return (None, Some err), s4)
  /\ err <> ""
  /\ Update.check_for_updates w Update.initial
     = (Return ((-1)%Z,
                "Cannot determine upstream commit. Is this branch tracking a remote? Git error: fatal: no upstream configured for branch 'dev'",
                false), s4).
Proof.
  intros w s1 s2 s3 s4 err.
  assert (H1 : Update._is_git_repo w Update.initial = (Return true, s1))
    by reflexivity.
  assert (H2 : Update._run_git_command w ["git"; "fetch"] s1
               = (Return (Some "", None), s2)) by reflexivity.
  assert (H3 : Update._run_git_command w ["git"; "rev-parse"; "HEAD"] s2
               = (Return (Some "1111111", None), s3)) by reflexivity.
  assert (H4 : Update._run_git_command w ["git"; "rev-parse"; "@{u}"] s3
               = (Return (None, Some err), s4)) by reflexivity.
  assert (H5 : err <> "") by discriminate.
  exact (conj H1 (conj H2 (conj H3 (conj H4 (conj H5
           (proj1 (upstream_failure_is_terminal w _ _ _ _ _ _ _ _ _ _ _
                     H1 H2 eq_refl H3 eq_refl H4 H5))))))).
Defined.

(** ** The applier *)

Lemma perform_update_shape w s :
  exists output error,
    Update._run_git_command w ["git"; "pull"; "--ff-only"]
      (Update.elapse [Obs.logged Obs.ATTEMPT] s)
    = (Return (output, error),
       Update.elapse [Obs.logged Obs.ATTEMPT; EvRun ["git"; "pull"; "--ff-only"]] s)
    /\ Update.perform_update w s
       = (Return (negb (Py.truthy error)),
          Update.elapse
            [Obs.logged Obs.ATTEMPT; EvRun ["git"; "pull"; "--ff-only"];
             Obs.logged
               (if Py.truthy error
                then "Failed to apply update automatically: " +:+ Py.format error
                else if Py.truthy output
                     then "Pull output:" +:+ String "010" (Py.format output)
                     else "Repository already up to date after pull.")] s).
Proof.
  destruct (run_git_command_cases w ["git"; "pull"; "--ff-only"]
              (Update.elapse [Obs.logged Obs.ATTEMPT] s)) as (o & e & Hrun & _).
  exists o, e. split.
  - rewrite Hrun, elapse_elapse. reflexivity.
  - unfold Update.perform_update.
    rewrite (bind_return _ _ _ _ _ (log_run _ _)).
    change (Update.elapse [EvPrint ("[Yuuka Auto Update] " +:+ _)] s)
      with (Update.elapse [Obs.logged Obs.ATTEMPT] s).
    step Hrun. destruct (Py.truthy e).
    + rewrite (bind_return _ _ _ _ _ (log_run _ _)). unfold Eff.ret.
      rewrite !elapse_elapse. reflexivity.
    + destruct (Py.truthy o);
        rewrite (bind_return _ _ _ _ _ (log_run _ _)); unfold Eff.ret;
        rewrite !elapse_elapse; reflexivity.
Qed.

(** X4. [perform_update] never raises; it prints the attempt, spawns
    exactly one command, [git pull --ff-only], prints exactly one more
    line, and answers [true] exactly when the runner reported no error
    text. The second line is the error, the output of the pull, or the
    note that nothing was pulled. *)
Theorem perform_update_outcome w s :
  exists output error,
    Update._run_git_command w ["git"; "pull"; "--ff-only"]
      (Update.elapse [Obs.logged Obs.ATTEMPT] s)
    = (Return (output, error),
       Update.elapse [Obs.logged Obs.ATTEMPT; EvRun ["git"; "pull"; "--ff-only"]] s)
    /\ Update.perform_update w s
       = (Return (negb (Py.truthy error)),
          Update.elapse
            [Obs.logged Obs.ATTEMPT; EvRun ["git"; "pull"; "--ff-only"];
             Obs.logged
               (if Py.truthy error
                then "Failed to apply update automatically: " +:+ Py.format error
                else if Py.truthy output
                     then "Pull output:" +:+ String "010" (Py.format output)
                     else "Repository already up to date after pull.")] s).
Proof. exact (perform_update_shape w s). Qed.

(** ** The orchestrator on an available update *)

Lemma available_update_outcome w force s0 message dep s1 applied s2 :
  Spec.gate_open force s0 ->
  ~ Spec.toggle_disables (Update.getenv w (Update.events s0) Spec.TOGGLE) ->
  Update.check_for_updates w (Spec.entered s0)
  = (Return (Spec.AheadAvailable, message, dep), s1) ->
  Update.perform_update w (Update.elapse [Obs.logged message] s1)
  = (Return applied, s2) ->
  Update.auto_update_if_needed w force s0
  = (Return applied,
     Update.elapse
       (if applied
        then Obs.logged Obs.SUCCESS
             :: (if dep
                 then EvExists "requirements.txt"
                      :: (if Update.exists_ w
                               (Update.events s2 ++ [Obs.logged Obs.SUCCESS])
                               "requirements.txt"
                          then [Obs.logged Obs.NOTICE]
                          else [])
                 else [])
        else []) s2).
Proof.
  intros Hgate Hen Hcheck Happly.
  enter_auto Hgate. rewrite (toggle_enabled w s0 Hen). step Hcheck.
  change (Spec.AheadAvailable =? Update.UPDATE_STATUS "ERROR")%Z with false.
  change (Spec.AheadAvailable =? Update.UPDATE_STATUS "SKIP")%Z with false.
  change (Spec.AheadAvailable =? Update.UPDATE_STATUS "UP_TO_DATE")%Z with false.
  cbv iota. rewrite (bind_return _ _ _ _ _ (log_run _ _)).
  step Happly. destruct applied; cbn [negb].
  - rewrite (bind_return _ _ _ _ _ (log_run _ _)). destruct dep.
    + rewrite (bind_return _ _ _ _ _ (path_exists_run _ _ _)).
      cbn [Update.elapse Update.events].
      change (EvPrint ("[Yuuka Auto Update] " +:+ _)) with (Obs.logged Obs.SUCCESS).
      destruct (Update.exists_ w (Update.events s2 ++ [Obs.logged Obs.SUCCESS])
                  "requirements.txt").
      * cbv iota. rewrite (bind_return _ _ _ _ _ (log_run _ _)). unfold Eff.ret.
        unfold Update.elapse. cbn. now rewrite <- !app_assoc.
      * cbv iota. unfold Eff.bind, Eff.ret. cbv beta iota.
        unfold Update.elapse. cbn. now rewrite <- !app_assoc.
    + unfold Eff.bind, Eff.ret. cbv beta iota. reflexivity.
  - unfold Eff.ret. now rewrite elapse_nil.
Qed.

(** X5. On an answer AheadAvailable (gate open, toggle enabled) the
    orchestrator prints the message, applies, and answers what the
    applier answered. After a failed apply it adds nothing. After a
    successful one it prints the restart line, and probes
    [requirements.txt] only if the dependency flag is set, printing the
    reinstall notice only if the file is there. *)
Theorem available_update_is_applied w force s0 message dep s1 applied s2 :
  Spec.gate_open force s0 ->
  ~ Spec.toggle_disables (Update.getenv w (Update.events s0) Spec.TOGGLE) ->
  Update.check_for_updates w (Spec.entered s0)
  = (Return (Spec.AheadAvailable, message, dep), s1) ->
  Update.perform_update w (Update.elapse [Obs.logged message] s1)
  = (Return applied, s2) ->
  Update.auto_update_if_needed w force s0
  = (Return applied,
     Update.elapse
       (if applied
        then Obs.logged Obs.SUCCESS
             :: (if dep
                 then EvExists "requirements.txt"
                      :: (if Update.exists_ w
                               (Update.events s2 ++ [Obs.logged Obs.SUCCESS])
                               "requirements.txt"
                          then [Obs.logged Obs.NOTICE]
                          else [])
                 else [])
        else []) s2).
Proof. exact (available_update_outcome w force s0 message dep s1 applied s2). Qed.

Lemma available_update_is_applied_witness :
  let w := Sample.behind "requirements.txt" in
  let s1 := Update.elapse (Spec.resolving ++ [Sample.listing])
              (Spec.entered Update.initial) in
  let message := "Update detected on remote branch." in
  let s2 := Update.elapse
              [Obs.logged message; Obs.logged Obs.ATTEMPT;
               EvRun ["git"; "pull"; "--ff-only"];
               Obs.logged "Pull output:
Updating 1111111..2222222"] s1 in
  Spec.gate_open false Update.initial
  /\ Update.check_for_updates w (Spec.entered Update.initial)
     = (Return (1%Z, message, true), s1)
  /\ Update.perform_update w (Update.elapse [Obs.logged message] s1)
     = (Return true, s2)
  /\ Update.auto_update_if_needed w false Update.initial
     = (Return true,
        Update.elapse
          [Obs.logged Obs.SUCCESS; EvExists "requirements.txt";
           Obs.logged Obs.NOTICE] s2).
Proof.
  intros w s1 message s2.
  assert (Hgate : Spec.gate_open false Update.initial) by (left; reflexivity).
  assert (Hen : ~ Spec.toggle_disables
                    (Update.getenv w (Update.events Update.initial) Spec.TOGGLE))
    by (intros (v & Hv & _); discriminate Hv).
  assert (Hc : Update.check_for_updates w (Spec.entered Update.initial)
               = (Return (1%Z, message, true), s1)) by reflexivity.
  assert (Hp : Update.perform_update w (Update.elapse [Obs.logged message] s1)
               = (Return true, s2)) by reflexivity.
  exact (conj Hgate (conj Hc (conj Hp
           (available_update_is_applied w false Update.initial message true s1
              true s2 Hgate Hen Hc Hp)))).
Defined.

(** ** What the checker can answer *)

Lemma answers_ret {A} (Q : A -> Prop) (a : A) : Q a -> Obs.answers Q (Eff.ret a).
Proof. intros H s b s' [= <- _]. exact H. Qed.

Lemma answers_raise {A} (Q : A -> Prop) (e : exn) :
  Obs.answers Q (@Eff.raise _ A e).
Proof. intros s b s' [=]. Qed.

Lemma answers_bind {A B} (Q : B -> Prop) (m : Update.M A) (k : A -> Update.M B) :
  (forall a, Obs.answers Q (k a)) -> Obs.answers Q (Eff.bind m k).
Proof.
  intros H s b s' E. unfold Eff.bind in E.
  destruct (m s) as [[a|e] s1]; [exact (H a s1 b s' E) | discriminate].
Qed.

Lemma check_for_updates_well_formed w :
  Obs.answers Obs.well_formed_result (Update.check_for_updates w).
Proof.
  unfold Update.check_for_updates.
  repeat first
    [ apply answers_raise
    | apply answers_ret; cbn; split; [tauto | congruence]
    | apply answers_bind; intros
    | match goal with
      | |- Obs.answers _ (if ?b then _ else _) => destruct b
      | |- Obs.answers _ (match ?x with _ => _ end) => destruct x
      end ].
Qed.

(** X6. Whatever the surroundings, an answer of the checker carries one
    of the four status codes, and its dependency flag is set only with
    AheadAvailable. *)
Theorem check_result_is_well_formed w s status message dep s' :
  Update.check_for_updates w s = (Return (status, message, dep), s') ->
  (status = 0 \/ status = 1 \/ status = -1 \/ status = 2)%Z
  /\ (dep = true -> status = Spec.AheadAvailable).
Proof. intros H. exact (check_for_updates_well_formed w s _ s' H). Qed.

Lemma check_result_is_well_formed_witness :
  let w := Sample.unlisted (Exited 128 "" "fatal: bad object") in
  let s' := Update.elapse (Spec.resolving ++ [Sample.listing]) Update.initial in
  Update.check_for_updates w Update.initial
  = (Return (1%Z, "Update detected (changed files could not be listed).", true), s')
  /\ (1 = 0 \/ 1 = 1 \/ 1 = -1 \/ 1 = 2)%Z
  /\ (true = true -> 1%Z = Spec.AheadAvailable).
Proof.
  intros w s'.
  assert (H : Update.check_for_updates w Update.initial
              = (Return (1%Z, "Update detected (changed files could not be listed).",
                         true), s')) by reflexivity.
  exact (conj H (check_result_is_well_formed w _ _ _ _ _ H)).
Defined.

(** X7. The orchestrator answers [true] only after a pull that
    succeeded: the gate was open, the toggle enabled, the checker
    answered AheadAvailable, the applier answered [true], and the
    history ends with the restart line and what follows it. *)
Theorem true_means_updated w force s s' :
  Update.auto_update_if_needed w force s = (Return true, s') ->
  Spec.gate_open force s
  /\ ~ Spec.toggle_disables (Update.getenv w (Update.events s) Spec.TOGGLE)
  /\ exists message dep s1 s2 evs,
      Update.check_for_updates w (Spec.entered s)
      = (Return (Spec.AheadAvailable, message, dep), s1)
      /\ Update.perform_update w (Update.elapse [Obs.logged message] s1)
         = (Return true, s2)
      /\ In (EvRun ["git"; "pull"; "--ff-only"]) (Update.events s2)
      /\ Update.events s' = Update.events s2 ++ Obs.logged Obs.SUCCESS :: evs.
Proof.
  intros H.
  assert (Hgate : Spec.gate_open force s).
  { destruct (Update._AUTO_UPDATE_RAN s) eqn:R; [|now left].
    destruct force; [now right|].
    rewrite (gate_closed w s R) in H. discriminate. }
  split; [exact Hgate|].
  assert (Hen : ~ Spec.toggle_disables
                    (Update.getenv w (Update.events s) Spec.TOGGLE)).
  { intros Hdis. revert H. enter_auto Hgate. rewrite (toggle_disabled w s Hdis).
    rewrite (bind_return _ _ _ _ _ (log_run _ _)). discriminate. }
  split; [exact Hen|].
  destruct (Update.check_for_updates w (Spec.entered s))
    as [[[[status message] dep]|e] s1] eqn:Hcheck.
  2:{ revert H. enter_auto Hgate. rewrite (toggle_enabled w s Hen).
      rewrite (bind_raise _ _ _ _ _ Hcheck). discriminate. }
  destruct (check_for_updates_well_formed w _ _ _ Hcheck) as [Hst _].
  destruct Hst as [-> | [-> | Hst]].
  - revert H. enter_auto Hgate. rewrite (toggle_enabled w s Hen). step Hcheck.
    discriminate.
  - destruct (Update.perform_update w (Update.elapse [Obs.logged message] s1))
      as [[applied|e] s2] eqn:Happly.
    + pose proof (available_update_outcome w force s message dep s1 applied s2
                    Hgate Hen Hcheck Happly) as Hauto.
      rewrite Hauto in H. injection H as -> <-.
      destruct (perform_update_shape w (Update.elapse [Obs.logged message] s1))
        as (o & e & _ & Hp).
      pose proof Happly as Hs2. rewrite Hp in Hs2. injection Hs2 as _ Hs2.
      exists message, dep, s1, s2. eexists.
      split; [first [reflexivity | exact Hcheck]|].
      split; [first [reflexivity | exact Happly]|]. split.
      * rewrite <- Hs2. cbn. apply in_or_app. right. right. left. reflexivity.
      * cbn [Update.elapse Update.events]. reflexivity.
    + destruct (perform_update_shape w (Update.elapse [Obs.logged message] s1))
        as (o & e' & _ & Hp).
      rewrite Hp in Happly. discriminate.
  - exfalso. revert H.
    rewrite (auto_on_refusal w force s _ _ _ _ Hgate Hen Hcheck Hst).
    discriminate.
Qed.

Lemma true_means_updated_witness :
  let w := Sample.behind "nodes/plugin.json" in
  let s' := snd (Update.auto_update_if_needed w false Update.initial) in
  Update.auto_update_if_needed w false Update.initial = (Return true, s')
  /\ Spec.gate_open false Update.initial
  /\ ~ Spec.toggle_disables (Update.getenv w (Update.events Update.initial) Spec.TOGGLE)
  /\ exists message dep s1 s2 evs,
      Update.check_for_updates w (Spec.entered Update.initial)
      = (Return (Spec.AheadAvailable, message, dep), s1)
      /\ Update.perform_update w (Update.elapse [Obs.logged message] s1)
         = (Return true, s2)
      /\ In (EvRun ["git"; "pull"; "--ff-only"]) (Update.events s2)
      /\ Update.events s' = Update.events s2 ++ Obs.logged Obs.SUCCESS :: evs.
Proof.
  intros w s'.
  assert (H : Update.auto_update_if_needed w false Update.initial = (Return true, s'))
    by reflexivity.
  exact (conj H (true_means_updated w false Update.initial s' H)).
Defined.

(** X8. [force] opens the gate: a forced call reads the toggle again
    even when the flag is already set, and leaves the flag set. *)
Theorem force_bypasses_the_gate w s :
  Update._AUTO_UPDATE_RAN s = true ->
  Update.auto_update_if_needed w false s = (Return false, s)
  /\ exists evs,
      Update.events (snd (Update.auto_update_if_needed w true s))
      = Update.events s ++ EvGetenv Spec.TOGGLE :: evs
      /\ Update._AUTO_UPDATE_RAN (snd (Update.auto_update_if_needed w true s)) = true.
Proof.
  intros Hran. split; [now apply gate_closed|].
  assert (Hgate : Spec.gate_open true s) by now right.
  assert (exists evs, Update.events (snd (Update.auto_update_if_needed w true s))
                      = Update.events s ++ EvGetenv Spec.TOGGLE :: evs) as [evs He].
  { enter_auto Hgate.
    match goal with
    | |- exists evs, Update.events (snd (?m ?s0)) = _ =>
        assert (F : frame m) by framing_all;
        destruct (F s0) as [_ [evs ->]]; exists evs
    end.
    cbn. now rewrite <- app_assoc. }
  exists evs. split; [exact He | apply auto_sets_flag].
Qed.

Lemma force_bypasses_the_gate_witness :
  let w := Sample.world None false true (fun _ => NotFound) in
  let s := {| Update._AUTO_UPDATE_RAN := true; Update.events := [] |} in
  Update._AUTO_UPDATE_RAN s = true
  /\ Update.auto_update_if_needed w false s = (Return false, s)
  /\ exists evs,
      Update.events (snd (Update.auto_update_if_needed w true s))
      = Update.events s ++ EvGetenv Spec.TOGGLE :: evs
      /\ Update._AUTO_UPDATE_RAN (snd (Update.auto_update_if_needed w true s)) = true.
Proof.
  intros w s.
  assert (H : Update._AUTO_UPDATE_RAN s = true) by reflexivity.
  exact (conj H (force_bypasses_the_gate w s H)).
Defined.

(** ** What the checker touches *)

Lemma frame_by_ret P {A} (a : A) : Obs.frame_by P (Eff.ret a).
Proof.
  intros s. split; [reflexivity|]. exists []. cbn.
  split; [now rewrite app_nil_r | constructor].
Qed.

Lemma frame_by_raise P {A} (e : exn) : Obs.frame_by P (@Eff.raise _ A e).
Proof.
  intros s. split; [reflexivity|]. exists []. cbn.
  split; [now rewrite app_nil_r | constructor].
Qed.

Lemma frame_by_history P : Obs.frame_by P Update.history.
Proof.
  intros s. split; [reflexivity|]. exists []. cbn.
  split; [now rewrite app_nil_r | constructor].
Qed.

Lemma frame_by_emit (P : Event -> Prop) (e : Event) :
  P e -> Obs.frame_by P (Update.emit e).
Proof.
  intros H s. split; [reflexivity|]. exists [e]. split; [reflexivity|].
  now repeat constructor.
Qed.

Lemma frame_by_bind P {A B} (m : Update.M A) (k : A -> Update.M B) :
  Obs.frame_by P m -> (forall a, Obs.frame_by P (k a)) ->
  Obs.frame_by P (Eff.bind m k).
Proof.
  intros Hm Hk s. unfold Eff.bind.
  destruct (Hm s) as [Hf (evs & He & HP)]. destruct (m s) as [[a|e] s1]; cbn in *.
  - destruct (Hk a s1) as [Hf' (evs' & He' & HP')]. split; [congruence|].
    exists (evs ++ evs'). split.
    + now rewrite He', He, app_assoc.
    + rewrite Forall_app. now split.
  - split; [assumption|]. now exists evs.
Qed.

Lemma frame_by_run_git_command P w command :
  P (EvRun command) -> Obs.frame_by P (Update._run_git_command w command).
Proof.
  intros H. unfold Update._run_git_command, Update.subprocess_run.
  apply frame_by_bind.
  - apply frame_by_bind; [apply frame_by_history|]. intros h.
    apply frame_by_bind; [now apply frame_by_emit|]. intros _. apply frame_by_ret.
  - intros [rc out err| |msg]; [destruct (rc =? 0)%Z|..]; apply frame_by_ret.
Qed.

Lemma frame_by_check_for_updates w :
  Obs.frame_by Obs.checker_event (Update.check_for_updates w).
Proof.
  unfold Update.check_for_updates, Update._is_git_repo, Update.path_exists.
  repeat first
    [ apply frame_by_ret | apply frame_by_raise | apply frame_by_history
    | apply frame_by_emit; unfold Obs.checker_event; now eauto 10
    | apply frame_by_run_git_command; unfold Obs.checker_event; now eauto 10
    | apply frame_by_bind; [|intros]
    | match goal with
      | |- Obs.frame_by _ (if ?b then _ else _) => destruct b
      | |- Obs.frame_by _ (match ?x with _ => _ end) => destruct x
      end ].
Qed.

(** X9. The checker alone never applies anything: whatever the
    surroundings and its outcome, it keeps the one-shot flag, prints no
    line, and spawns nothing but the fetch, the two resolutions and the
    listing; in particular never the pull. *)
Theorem checker_only_looks w s :
  exists evs,
    Update.events (snd (Update.check_for_updates w s)) = Update.events s ++ evs
    /\ Forall Obs.checker_event evs
    /\ (forall line, ~ In (EvPrint line) evs)
    /\ ~ In (EvRun ["git"; "pull"; "--ff-only"]) evs
    /\ Update._AUTO_UPDATE_RAN (snd (Update.check_for_updates w s))
       = Update._AUTO_UPDATE_RAN s.
Proof.
  destruct (frame_by_check_for_updates w s) as [Hf (evs & He & HP)].
  exists evs. split; [exact He|]. split; [exact HP|].
  rewrite Forall_forall in HP.
  assert (Hno : forall e, In e evs -> Obs.checker_event e)
    by (intros e Hin; apply HP; now apply list_elem_of_In).
  split; [|split; [|exact Hf]].
  - intros line Hin.
    destruct (Hno _ Hin) as [H | [H | [H | [H | [r H]]]]]; discriminate.
  - intros Hin.
    destruct (Hno _ Hin) as [H | [H | [H | [H | [r H]]]]]; discriminate.
Qed.

(** ** When nothing can raise *)

Lemma returns_ret {A} (a : A) : Obs.returns (Eff.ret a).
Proof. intros s. now exists a, s. Qed.

Lemma returns_bind {A B} (m : Update.M A) (k : A -> Update.M B) :
  Obs.returns m -> (forall a, Obs.returns (k a)) -> Obs.returns (Eff.bind m k).
Proof.
  intros Hm Hk s. destruct (Hm s) as (a & s1 & E).
  rewrite (bind_return _ _ _ _ _ E). apply Hk.
Qed.

Lemma returns_log message : Obs.returns (Update._log message).
Proof. intros s. do 2 eexists. apply log_run. Qed.

Lemma returns_path_exists w path : Obs.returns (Update.path_exists w path).
Proof. intros s. do 2 eexists. apply path_exists_run. Qed.

Lemma returns_perform_update w : Obs.returns (Update.perform_update w).
Proof.
  intros s. destruct (perform_update_shape w s) as (o & e & _ & H).
  do 2 eexists. exact H.
Qed.

(** In a loud world an answer of the runner without error text carries
    an output. *)
Lemma loud_runner w command s o e s' :
  Obs.loud w ->
  Update._run_git_command w command s = (Return (o, e), s') ->
  Py.truthy e = false ->
  exists text, o = Some text.
Proof.
  intros Hloud Hrun T.
  destruct (run_git_command_cases w command s) as (o' & e' & Hrun' & Hc).
  rewrite Hrun' in Hrun. injection Hrun as -> -> _.
  specialize (Hloud (Update.events s) command).
  destruct (Update.spawn w (Update.events s) command) as [rc out err| |msg].
  - destruct Hc as [Hzero Hfail]. destruct (Z.eq_dec rc 0%Z) as [Hrc|Hrc].
    + destruct (Hzero Hrc) as [-> _]. eauto.
    + exfalso. destruct (Hfail Hrc) as (_ & Herr & Hout).
      destruct (String.eqb_spec (Py.strip err) "") as [E|E].
      * rewrite (Hout E) in T. destruct Hloud as [? | [? | Hne]]; try contradiction.
        rewrite (truthy_some _ Hne) in T. discriminate.
      * rewrite (Herr E) in T. rewrite (truthy_some _ E) in T. discriminate.
  - exfalso. destruct Hc as [_ ->]. discriminate T.
  - exfalso. destruct Hc as [_ ->]. rewrite (truthy_some _ Hloud) in T.
    discriminate.
Qed.

Lemma loud_check_for_updates w : Obs.loud w -> Obs.returns (Update.check_for_updates w).
Proof.
  intros Hloud s. unfold Update.check_for_updates.
  step (is_git_repo_run w s).
  destruct (Update.exists_ w (Update.events s) ".git"); cbn [negb];
    [|do 2 eexists; reflexivity].
  destruct (run_git_command_cases w ["git"; "fetch"]
              (Update.elapse [EvExists ".git"] s)) as (o1 & e1 & H1 & _).
  step H1. destruct (Py.truthy e1); [do 2 eexists; reflexivity|].
  match goal with |- context [Update._run_git_command w ?c] =>
    match goal with |- exists _ _, Eff.bind _ _ ?s0 = _ =>
      destruct (run_git_command_cases w c s0) as (l & e2 & H2 & _) end end.
  step H2. destruct (Py.truthy e2); [do 2 eexists; reflexivity|].
  match goal with |- context [Update._run_git_command w ?c] =>
    match goal with |- exists _ _, Eff.bind _ _ ?s0 = _ =>
      destruct (run_git_command_cases w c s0) as (r & e3 & H3 & _) end end.
  step H3. destruct (Py.truthy e3); [do 2 eexists; reflexivity|].
  destruct (Py.eq_opt l r); [do 2 eexists; reflexivity|].
  match goal with |- context [Update._run_git_command w ?c] =>
    match goal with |- exists _ _, Eff.bind _ _ ?s0 = _ =>
      destruct (run_git_command_cases w c s0) as (o & e & H & _) end end.
  step H. destruct (Py.truthy e) eqn:T; [do 2 eexists; reflexivity|].
  destruct (loud_runner w _ _ _ _ _ Hloud H T) as [text ->].
  do 2 eexists. reflexivity.
Qed.

(** X10. In a world where every failing command says something (a
    non-zero exit leaves text on a stream, an exception has a message),
    neither the checker nor the orchestrator ever raises: every outcome
    is an answer. *)
Theorem loud_world_never_raises w force s :
  Obs.loud w ->
  (exists r s', Update.check_for_updates w s = (Return r, s'))
  /\ (exists b s', Update.auto_update_if_needed w force s = (Return b, s')).
Proof.
  intros Hloud. split; [apply (loud_check_for_updates w Hloud)|].
  unfold Update.auto_update_if_needed.
  rewrite (bind_return _ _ _ _ _ (read_flag_run _)). cbv beta.
  destruct (Update._AUTO_UPDATE_RAN s && negb force); [do 2 eexists; reflexivity|].
  rewrite (bind_return _ _ _ _ _ (write_flag_run _ _)). cbv beta.
  rewrite (bind_return _ _ _ _ _ (os_getenv_run _ _ _ _)). cbv beta zeta.
  match goal with
  | |- exists b s', ?m ?s0 = _ => assert (R : Obs.returns m); [|exact (R s0)]
  end.
  repeat first
    [ apply returns_ret | apply returns_log | apply returns_path_exists
    | apply returns_perform_update | apply (loud_check_for_updates w Hloud)
    | apply returns_bind; [|intros]
    | match goal with
      | |- Obs.returns (if ?b then _ else _) => destruct b
      | |- Obs.returns (match ?x with _ => _ end) => destruct x
      end ].
Qed.

Lemma loud_world_never_raises_witness :
  let w := Sample.world None true true (fun _ => NotFound) in
  Obs.loud w
  /\ (exists r s', Update.check_for_updates w Update.initial = (Return r, s'))
  /\ (exists b s',
        Update.auto_update_if_needed w false Update.initial = (Return b, s')).
Proof.
  intros w.
  assert (H : Obs.loud w) by (intros h command; exact I).
  exact (conj H (loud_world_never_raises w false Update.initial H)).
Defined.

(** ** The loader across calls *)

Lemma load_cached host p m :
  Bootstrap.sys_modules p !! Bootstrap._MODULE_NAME = Some m ->
  Bootstrap._load_update_module host p = (Return (Some m), p).
Proof.
  intros H. unfold Bootstrap._load_update_module, Bootstrap.sys_modules_get, Eff.bind.
  now rewrite H.
Qed.

(** [ensure_auto_update] once a module with the entry point is at hand:
    the entry point runs on the module's flag, an exception it raises is
    printed, and the module stays registered with the flag it ends with. *)
Lemma ensure_with_module host p m p' :
  Bootstrap._load_update_module host p = (Return (Some m), p') ->
  Bootstrap.has_auto_update_if_needed m = true ->
  let run :=
    Update.auto_update_if_needed (Bootstrap.world host) false
      {| Update._AUTO_UPDATE_RAN := Bootstrap.module_AUTO_UPDATE_RAN m;
         Update.events := Bootstrap.trace p' |} in
  Bootstrap.ensure_auto_update host p
  = (Return tt,
     {| Bootstrap.sys_modules :=
          <[Bootstrap._MODULE_NAME :=
              {| Bootstrap.has_auto_update_if_needed := true;
                 Bootstrap.module_AUTO_UPDATE_RAN :=
                   Update._AUTO_UPDATE_RAN (snd run) |}]>
            (Bootstrap.sys_modules p');
        Bootstrap.trace :=
          match fst run with
          | Return _ => Update.events (snd run)
          | Raise e =>
              Update.events (snd run)
              ++ [EvPrint ("[Yuuka Auto Update] Skipping due to unexpected error: "
                           +:+ exn_str e)]
          end |}).
Proof.
  intros Hload Hattr run. subst run.
  unfold Bootstrap.ensure_auto_update, Eff.try_except.
  rewrite (bind_return _ _ _ _ _ Hload). rewrite Hattr.
  unfold Eff.bind, Bootstrap.call_auto_update_if_needed. rewrite Hattr.
  destruct (Update.auto_update_if_needed (Bootstrap.world host) false _)
    as [[b|e] st]; reflexivity.
Qed.

Lemma ensure_without_entry host p m p' :
  Bootstrap._load_update_module host p = (Return (Some m), p') ->
  Bootstrap.has_auto_update_if_needed m = false ->
  Bootstrap.ensure_auto_update host p = (Return tt, p').
Proof.
  intros Hload Hattr. unfold Bootstrap.ensure_auto_update, Eff.try_except.
  rewrite (bind_return _ _ _ _ _ Hload). now rewrite Hattr.
Qed.

Lemma ensure_without_module host p p' :
  Bootstrap._load_update_module host p = (Return None, p') ->
  Bootstrap.ensure_auto_update host p = (Return tt, p').
Proof.
  intros Hload. unfold Bootstrap.ensure_auto_update, Eff.try_except.
  now rewrite (bind_return _ _ _ _ _ Hload).
Qed.

(** A module registered with its flag set: the call changes nothing. *)
Lemma ensure_on_consumed host p m :
  Bootstrap.sys_modules p !! Bootstrap._MODULE_NAME = Some m ->
  Bootstrap.has_auto_update_if_needed m = true ->
  Bootstrap.module_AUTO_UPDATE_RAN m = true ->
  Bootstrap.ensure_auto_update host p = (Return tt, p).
Proof.
  intros Hreg Hattr Hran.
  rewrite (ensure_with_module host p m p (load_cached host p m Hreg) Hattr).
  rewrite Hran. rewrite gate_closed by reflexivity. cbn [fst snd Update._AUTO_UPDATE_RAN
    Update.events].
  destruct p as [reg tr], m as [a r]. cbn in *. subst a r.
  now rewrite (insert_id _ _ _ Hreg).
Qed.

(** After any call, a registered module with the entry point has its
    flag set. *)
Lemma ensure_consumes host p r p1 m :
  Bootstrap.ensure_auto_update host p = (r, p1) ->
  Bootstrap.sys_modules p1 !! Bootstrap._MODULE_NAME = Some m ->
  Bootstrap.has_auto_update_if_needed m = true ->
  Bootstrap.module_AUTO_UPDATE_RAN m = true.
Proof.
  intros Hens Hreg Hattr.
  assert (Hwith : forall m0 p',
             Bootstrap._load_update_module host p = (Return (Some m0), p') ->
             Bootstrap.has_auto_update_if_needed m0 = true ->
             Bootstrap.module_AUTO_UPDATE_RAN m = true).
  { intros m0 p' Hload Hattr0.
    rewrite (ensure_with_module host p m0 p' Hload Hattr0) in Hens.
    injection Hens as _ <-. cbn [Bootstrap.sys_modules] in Hreg.
    rewrite lookup_insert_eq in Hreg. injection Hreg as <-.
    cbn [Bootstrap.module_AUTO_UPDATE_RAN]. apply auto_sets_flag. }
  destruct (Bootstrap.sys_modules p !! Bootstrap._MODULE_NAME) as [m0|] eqn:Hp.
  - pose proof (load_cached host p m0 Hp) as Hload.
    destruct (Bootstrap.has_auto_update_if_needed m0) eqn:Hattr0.
    + exact (Hwith m0 p Hload Hattr0).
    + rewrite (ensure_without_entry host p m0 p Hload Hattr0) in Hens.
      injection Hens as _ <-. congruence.
  - destruct (Update.exists_ (Bootstrap.world host) (Bootstrap.trace p) "update.py")
      eqn:Hex.
    2:{ rewrite (ensure_without_module host p _ (load_absent host p Hp Hex)) in Hens.
        injection Hens as _ <-. cbn in Hreg. congruence. }
    destruct (Bootstrap.spec_from_file_location host
                (Bootstrap.trace p ++ [EvExists "update.py"])) eqn:Hspec.
    2:{ rewrite (ensure_without_module host p _
                   (load_without_spec host p Hp Hex Hspec)) in Hens.
        injection Hens as _ <-. cbn in Hreg. congruence. }
    destruct (Bootstrap.exec_module host
                (Bootstrap.trace p ++ [EvExists "update.py"])) as [e|] eqn:Hexec.
    + exfalso. revert Hens. unfold Bootstrap.ensure_auto_update, Eff.try_except.
      rewrite (bind_raise _ _ _ _ _ (load_raises host p Hp e Hex Hspec Hexec)).
      intros [= _ <-]. cbn in Hreg. congruence.
    + exact (Hwith _ _ (load_registers host p Hp Hex Hspec Hexec) eq_refl).
Qed.

(** X11. Once a call of [ensure_auto_update] has left a module
    registered under [_MODULE_NAME], every further call is a no-op for
    the process: same registry, same history, nothing probed, executed,
    spawned or printed. This holds whatever the first call met, also an
    exception out of the update itself. *)
Theorem second_import_is_a_no_op host p r p1 :
  Bootstrap.ensure_auto_update host p = (r, p1) ->
  is_Some (Bootstrap.sys_modules p1 !! Bootstrap._MODULE_NAME) ->
  Bootstrap.ensure_auto_update host p1 = (Return tt, p1).
Proof.
  intros Hens [m Hreg].
  destruct (Bootstrap.has_auto_update_if_needed m) eqn:Hattr.
  - apply (ensure_on_consumed host p1 m Hreg Hattr).
    exact (ensure_consumes host p r p1 m Hens Hreg Hattr).
  - exact (ensure_without_entry host p1 m p1 (load_cached host p1 m Hreg) Hattr).
Qed.

Lemma second_import_is_a_no_op_witness :
  let host := Sample.host true None in
  let p1 := snd (Bootstrap.ensure_auto_update host Sample.fresh) in
  Bootstrap.ensure_auto_update host Sample.fresh = (Return tt, p1)
  /\ is_Some (Bootstrap.sys_modules p1 !! Bootstrap._MODULE_NAME)
  /\ Bootstrap.ensure_auto_update host p1 = (Return tt, p1).
Proof.
  intros host p1.
  assert (H1 : Bootstrap.ensure_auto_update host Sample.fresh = (Return tt, p1))
    by reflexivity.
  assert (H2 : is_Some (Bootstrap.sys_modules p1 !! Bootstrap._MODULE_NAME)).
  { eexists. vm_compute. reflexivity. }
  exact (conj H1 (conj H2 (second_import_is_a_no_op host Sample.fresh _ p1 H1 H2))).
Defined.

(** X12. An exception that escapes [auto_update_if_needed] (the
    [AttributeError] of a listing that failed without output) stops at
    [ensure_auto_update]: the call returns, the exception is printed
    after the fixed prefix, and the module stays registered with its
    flag set, so the update is not tried again in this process. *)
Theorem update_exception_is_contained host p m p' e st :
  Bootstrap._load_update_module host p = (Return (Some m), p') ->
  Bootstrap.has_auto_update_if_needed m = true ->
  Update.auto_update_if_needed (Bootstrap.world host) false
    {| Update._AUTO_UPDATE_RAN := Bootstrap.module_AUTO_UPDATE_RAN m;
       Update.events := Bootstrap.trace p' |}
  = (Raise e, st) ->
  Bootstrap.ensure_auto_update host p
  = (Return tt,
     {| Bootstrap.sys_modules :=
          <[Bootstrap._MODULE_NAME :=
              {| Bootstrap.has_auto_update_if_needed := true;
                 Bootstrap.module_AUTO_UPDATE_RAN := true |}]>
            (Bootstrap.sys_modules p');
        Bootstrap.trace :=
          Update.events st
          ++ [EvPrint ("[Yuuka Auto Update] Skipping due to unexpected error: "
                       +:+ exn_str e)] |}).
Proof.
  intros Hload Hattr Hrun.
  rewrite (ensure_with_module host p m p' Hload Hattr).
  pose proof (auto_sets_flag (Bootstrap.world host) false
                {| Update._AUTO_UPDATE_RAN := Bootstrap.module_AUTO_UPDATE_RAN m;
                   Update.events := Bootstrap.trace p' |}) as Hflag.
  cbv zeta. rewrite Hflag, Hrun. reflexivity.
Qed.

Lemma update_exception_is_contained_witness :
  let host :=
    {| Bootstrap.world := Sample.unlisted (Exited 1 "" "");
       Bootstrap.spec_from_file_location := fun _ => true;
       Bootstrap.exec_module := fun _ => None |} in
  let p' := {| Bootstrap.sys_modules :=
                 <[Bootstrap._MODULE_NAME := Bootstrap.loaded_module]> ∅;
               Bootstrap.trace := [EvExists "update.py"; EvExec "update.py"] |} in
  let e := {| exn_class := "AttributeError";
              exn_str := "'NoneType' object has no attribute 'splitlines'" |} in
  let st := snd (Update.auto_update_if_needed (Bootstrap.world host) false
                   {| Update._AUTO_UPDATE_RAN := false;
                      Update.events := Bootstrap.trace p' |}) in
  Bootstrap._load_update_module host Sample.fresh
  = (Return (Some Bootstrap.loaded_module), p')
  /\ Update.auto_update_if_needed (Bootstrap.world host) false
       {| Update._AUTO_UPDATE_RAN := false; Update.events := Bootstrap.trace p' |}
     = (Raise e, st)
  /\ Bootstrap.ensure_auto_update host Sample.fresh
     = (Return tt,
        {| Bootstrap.sys_modules :=
             <[Bootstrap._MODULE_NAME :=
                 {| Bootstrap.has_auto_update_if_needed := true;
                    Bootstrap.module_AUTO_UPDATE_RAN := true |}]>
               (Bootstrap.sys_modules p');
           Bootstrap.trace :=
             Update.events st
             ++ [EvPrint "[Yuuka Auto Update] Skipping due to unexpected error: 'NoneType' object has no attribute 'splitlines'"] |}).
Proof.
  intros host p' e st.
  assert (H1 : Bootstrap._load_update_module host Sample.fresh
               = (Return (Some Bootstrap.loaded_module), p')).
  { exact (load_registers host Sample.fresh (lookup_empty _) eq_refl eq_refl eq_refl). }
  assert (H2 : Update.auto_update_if_needed (Bootstrap.world host) false
                 {| Update._AUTO_UPDATE_RAN := false;
                    Update.events := Bootstrap.trace p' |}
               = (Raise e, st)) by reflexivity.
  exact (conj H1 (conj H2
           (update_exception_is_contained host Sample.fresh Bootstrap.loaded_module
              p' e st H1 eq_refl H2))).
Defined.

(** X13. The first call in a process where [update.py] loads: the file
    is probed and executed once, the orchestrator runs once on a fresh
    flag right after, and the module ends up registered with the flag
    set; the history is the orchestrator's, plus one line if it raised. *)
Theorem first_import_loads_and_runs host p :
  Bootstrap.sys_modules p !! Bootstrap._MODULE_NAME = None ->
  Update.exists_ (Bootstrap.world host) (Bootstrap.trace p) "update.py" = true ->
  Bootstrap.spec_from_file_location host (Bootstrap.trace p ++ [EvExists "update.py"])
  = true ->
  Bootstrap.exec_module host (Bootstrap.trace p ++ [EvExists "update.py"]) = None ->
  let run :=
    Update.auto_update_if_needed (Bootstrap.world host) false
      {| Update._AUTO_UPDATE_RAN := false;
         Update.events :=
           Bootstrap.trace p ++ [EvExists "update.py"; EvExec "update.py"] |} in
  Bootstrap.ensure_auto_update host p
  = (Return tt,
     {| Bootstrap.sys_modules :=
          <[Bootstrap._MODULE_NAME :=
              {| Bootstrap.has_auto_update_if_needed := true;
                 Bootstrap.module_AUTO_UPDATE_RAN := true |}]>
            (Bootstrap.sys_modules p);
        Bootstrap.trace :=
          Update.events (snd run)
          ++ match fst run with
             | Return _ => []
             | Raise e =>
                 [EvPrint ("[Yuuka Auto Update] Skipping due to unexpected error: "
                           +:+ exn_str e)]
             end |}).
Proof.
  intros Hnone Hex Hspec Hexec run.
  rewrite (ensure_with_module host p _ _
             (load_registers host p Hnone Hex Hspec Hexec) eq_refl).
  cbv zeta. cbn [Bootstrap.trace Bootstrap.sys_modules
                 Bootstrap.module_AUTO_UPDATE_RAN Bootstrap.loaded_module].
  rewrite insert_insert_eq.
  replace ((Bootstrap.trace p ++ [EvExists "update.py"]) ++ [EvExec "update.py"])
    with (Bootstrap.trace p ++ [EvExists "update.py"; EvExec "update.py"])
    by now rewrite <- app_assoc.
  fold run. rewrite (auto_sets_flag _ _ _ : Update._AUTO_UPDATE_RAN (snd run) = true).
  destruct (fst run); [now rewrite app_nil_r | reflexivity].
Qed.

Lemma first_import_loads_and_runs_witness :
  let host := Sample.host true None in
  Bootstrap.sys_modules Sample.fresh !! Bootstrap._MODULE_NAME = None
  /\ Update.exists_ (Bootstrap.world host) [] "update.py" = true
  /\ Bootstrap.ensure_auto_update host Sample.fresh
     = (Return tt,
        {| Bootstrap.sys_modules :=
             <[Bootstrap._MODULE_NAME :=
                 {| Bootstrap.has_auto_update_if_needed := true;
                    Bootstrap.module_AUTO_UPDATE_RAN := true |}]> ∅;
           Bootstrap.trace :=
             [EvExists "update.py"; EvExec "update.py";
              EvGetenv "YUUKA_COMFYUI_AUTO_UPDATE"; EvExists ".git";
              EvRun ["git"; "fetch"]; EvRun ["git"; "rev-parse"; "HEAD"];
              EvRun ["git"; "rev-parse"; "@{u}"]] |}).
Proof.
  intros host.
  assert (H0 : Bootstrap.sys_modules Sample.fresh !! Bootstrap._MODULE_NAME = None)
    by apply lookup_empty.
  assert (H1 : Update.exists_ (Bootstrap.world host) [] "update.py" = true)
    by reflexivity.
  exact (conj H0 (conj H1
           (first_import_loads_and_runs host Sample.fresh H0 H1 eq_refl eq_refl))).
Defined.

(** ** The changed-path list *)

Lemma lstrip_head (s : string) :
  Py.lstrip s = ""
  \/ exists c t, Py.lstrip s = String c t /\ Py.isspace c = false.
Proof.
  induction s as [|c s IH]; [now left|]. cbn [Py.lstrip].
  destruct (Py.isspace c) eqn:E; [exact IH | right; now exists c, s].
Qed.

Lemma rstrip_head (c : ascii) (t : string) :
  Py.isspace c = false -> exists t', Py.rstrip (String c t) = String c t'.
Proof.
  intros E. cbn [Py.rstrip]. rewrite E. destruct (Py.rstrip t); eauto.
Qed.

Lemma rstrip_idempotent (s : string) : Py.rstrip (Py.rstrip s) = Py.rstrip s.
Proof.
  induction s as [|c s IH]; [reflexivity|]. cbn [Py.rstrip].
  destruct (Py.rstrip s) as [|d r] eqn:R.
  - destruct (Py.isspace c) eqn:E; [reflexivity|]. cbn [Py.rstrip]. now rewrite E.
  - change (Py.rstrip (String c (String d r)))
      with (match Py.rstrip (String d r) with
            | EmptyString => if Py.isspace c then EmptyString else String c EmptyString
            | t => String c t
            end).
    now rewrite IH.
Qed.

Lemma strip_idempotent (s : string) : Py.strip (Py.strip s) = Py.strip s.
Proof.
  unfold Py.strip.
  destruct (lstrip_head s) as [-> | (c & t & -> & E)]; [reflexivity|].
  destruct (rstrip_head c t E) as [t' Ht]. rewrite Ht.
  cbn [Py.lstrip]. rewrite E, <- Ht. apply rstrip_idempotent.
Qed.

(** X14. The changed-path list built from the output of the listing has
    no empty entry, and no entry has white space at either end: blank
    lines are dropped and every kept line is trimmed. *)
Theorem changed_files_are_trimmed (text p : string) :
  In p (Update.changed_files_of text) ->
  p <> "" /\ Py.strip p = p.
Proof.
  unfold Update.changed_files_of. intros H.
  apply List.in_map_iff in H as (line & <- & Hin).
  apply List.filter_In in Hin as [_ Hne]. split.
  - apply negb_true_iff in Hne. now apply String.eqb_neq.
  - apply strip_idempotent.
Qed.

Lemma changed_files_are_trimmed_witness :
  let text := "  nodes/plugin.json

	readme.md  " in
  Update.changed_files_of text = ["nodes/plugin.json"; "readme.md"]
  /\ In "readme.md" (Update.changed_files_of text)
  /\ "readme.md" <> "" /\ Py.strip "readme.md" = "readme.md".
Proof.
  intros text.
  assert (H0 : Update.changed_files_of text = ["nodes/plugin.json"; "readme.md"])
    by reflexivity.
  assert (H : In "readme.md" (Update.changed_files_of text))
    by (right; left; reflexivity).
  exact (conj H0 (conj H (changed_files_are_trimmed text "readme.md" H))).
Defined.

(** ** The node mappings of the package *)

(** X15. After the two merges of [__init__.py], a key of either
    dictionary holds the entry of the output-nodes module when that
    module has one, else the entry of the downloader module; a module
    without the attribute contributes nothing. *)
Theorem merged_lookup {Class : Type} (lora output : @Package.node_module Class)
    (key : string) :
  Package.NODE_CLASS_MAPPINGS (Package.merged lora output) !! key
  = match Package.getattr_or_empty (Package.attr_NODE_CLASS_MAPPINGS output) !! key with
    | Some c => Some c
    | None => Package.getattr_or_empty (Package.attr_NODE_CLASS_MAPPINGS lora) !! key
    end
  /\ Package.NODE_DISPLAY_NAME_MAPPINGS (Package.merged lora output) !! key
     = match Package.getattr_or_empty
               (Package.attr_NODE_DISPLAY_NAME_MAPPINGS output) !! key with
       | Some n => Some n
       | None =>
           Package.getattr_or_empty
             (Package.attr_NODE_DISPLAY_NAME_MAPPINGS lora) !! key
       end
  /\ (Package.attr_NODE_CLASS_MAPPINGS output = None ->
      Package.NODE_CLASS_MAPPINGS (Package.merged lora output)
      = Package.getattr_or_empty (Package.attr_NODE_CLASS_MAPPINGS lora)).
Proof.
  unfold Package.merged, Package._merge, Package.dict_update.
  cbn [Package.NODE_CLASS_MAPPINGS Package.NODE_DISPLAY_NAME_MAPPINGS].
  split; [|split].
  - rewrite !lookup_union, lookup_empty.
    destruct (Package.getattr_or_empty (Package.attr_NODE_CLASS_MAPPINGS output) !! key),
      (Package.getattr_or_empty (Package.attr_NODE_CLASS_MAPPINGS lora) !! key);
      reflexivity.
  - rewrite !lookup_union, lookup_empty.
    destruct (Package.getattr_or_empty
                (Package.attr_NODE_DISPLAY_NAME_MAPPINGS output) !! key),
      (Package.getattr_or_empty
         (Package.attr_NODE_DISPLAY_NAME_MAPPINGS lora) !! key);
      reflexivity.
  - intros ->. cbn [Package.getattr_or_empty].
    now rewrite (left_id_L ∅ (∪)), (right_id_L ∅ (∪)).
Qed.

Lemma merged_lookup_witness :
  let lora : @Package.node_module nat :=
    {| Package.attr_NODE_CLASS_MAPPINGS := Some {[ "YuukaLoraDownloader" := 1%nat ]};
       Package.attr_NODE_DISPLAY_NAME_MAPPINGS := None |} in
  let output : @Package.node_module nat :=
    {| Package.attr_NODE_CLASS_MAPPINGS := None;
       Package.attr_NODE_DISPLAY_NAME_MAPPINGS := None |} in
  Package.attr_NODE_CLASS_MAPPINGS output = None
  /\ Package.NODE_CLASS_MAPPINGS (Package.merged lora output)
     = {[ "YuukaLoraDownloader" := 1%nat ]}.
Proof.
  intros lora output.
  assert (H : Package.attr_NODE_CLASS_MAPPINGS output = None) by reflexivity.
  exact (conj H (proj2 (proj2 (merged_lookup lora output "YuukaLoraDownloader")) H)).
Defined.
